(** * SAPHIR morphing: the result-container notebook

    A shallow embedding of [create_result_containers.ipynb].  The notebook is
    a straight-line IPython session: it imports numpy, binds a handful of
    constants, derives the grid sizes with [int( (hi-lo)/DX )], builds the
    coordinate vectors with [np.linspace], allocates the result, intermediate
    and stack containers with [np.zeros], and inspects the session with
    [whos] after each allocation cell.

    Python floats and the [float64] array elements are IEEE binary64 numbers;
    they are modelled by Rocq's primitive floats, so every arithmetic step of
    the notebook is evaluated with the rounding the interpreter performs.
    The session namespace is a finite map from names to values; statements
    are actions of a state-and-exception monad over the session. *)

From Stdlib Require Import ZArith QArith Qround Qabs Floats List Lia.
From stdpp Require Import gmap strings sorting.
Import ListNotations.

#[local] Set Warnings "-register-all".
Local Open Scope Z_scope.

(** ** Python values *)

(** A numpy array of dtype [float64]: its shape and its C-contiguous
    buffer. *)
Record ndarray : Type := mk_ndarray {
  shape : list Z;
  data : list float
}.

Inductive value : Type :=
| VInt (z : Z)
| VFloat (f : float)
| VTuple (items : list value)
| VArray (a : ndarray)
| VModule (name : string).

Inductive exn : Type :=
| NameError (name : string)
| TypeError
| ValueError
| ZeroDivisionError
| OverflowError
| AttributeError (attr : string).

Inductive result (A : Type) : Type :=
| Ok (a : A)
| Raise (e : exn).
Arguments Ok {A} a.
Arguments Raise {A} e.

Definition rbind {A B : Type} (r : result A) (k : A -> result B) : result B :=
  match r with
  | Ok a => k a
  | Raise e => Raise e
  end.

(** ** binary64 arithmetic as Python exposes it *)

Module Py.

(** The binary64 number nearest to an integer (ties to even). *)
Definition of_Z (z : Z) : float :=
  SF2Prim (binary_normalize prec emax z 0 false).

(** [float(n)] for a Python int: [OverflowError] when the nearest
    binary64 number is not finite. *)
Definition float_of_int (z : Z) : result float :=
  let f := of_Z z in
  if PrimFloat.is_infinity f then Raise OverflowError else Ok f.

(** [int(x)] for a Python float: truncation towards zero. *)
Definition int_of_float (f : float) : result Z :=
  match Prim2SF f with
  | S754_zero _ => Ok 0
  | S754_infinity _ => Raise OverflowError
  | S754_nan => Raise ValueError
  | S754_finite s m e =>
      let mag := if 0 <=? e then Z.pos m * 2 ^ e else Z.pos m / 2 ^ (- e) in
      Ok (if s then - mag else mag)
  end.

(** The exact rational denoted by a finite binary64 number, in lowest
    terms. *)
Definition to_Q (f : float) : option Q :=
  match Prim2SF f with
  | S754_zero _ => Some 0%Q
  | S754_finite s m e =>
      let mag := if 0 <=? e then inject_Z (Z.pos m * 2 ^ e)
                 else Qmake (Z.pos m) (Z.to_pos (2 ^ (- e))) in
      Some (Qred (if s then Qopp mag else mag))
  | _ => None
  end.

(** Numeric coercion of the two operands of a binary operator.  The
    notebook only ever combines ints and floats; any other operand is
    answered with [TypeError] (numpy's broadcasting over array operands is
    not modelled). *)
Inductive operands : Type :=
| Ints (a b : Z)
| Floats (a b : float).

Definition coerce (x y : value) : result operands :=
  match x, y with
  | VInt a, VInt b => Ok (Ints a b)
  | VInt a, VFloat b => rbind (float_of_int a) (fun a' => Ok (Floats a' b))
  | VFloat a, VInt b => rbind (float_of_int b) (fun b' => Ok (Floats a b'))
  | VFloat a, VFloat b => Ok (Floats a b)
  | _, _ => Raise TypeError
  end.

(** [x - y] *)
Definition sub (x y : value) : result value :=
  rbind (coerce x y) (fun o =>
    match o with
    | Ints a b => Ok (VInt (a - b))
    | Floats a b => Ok (VFloat (a - b)%float)
    end).

(** [x + y] *)
Definition add (x y : value) : result value :=
  rbind (coerce x y) (fun o =>
    match o with
    | Ints a b => Ok (VInt (a + b))
    | Floats a b => Ok (VFloat (a + b)%float)
    end).

(** [x * y] *)
Definition mul (x y : value) : result value :=
  rbind (coerce x y) (fun o =>
    match o with
    | Ints a b => Ok (VInt (a * b))
    | Floats a b => Ok (VFloat (a * b)%float)
    end).

(** [x / y]: true division, always a float, [ZeroDivisionError] on a zero
    divisor.  (For two ints CPython rounds the exact quotient once; that
    agrees with the quotient of the converted operands whenever both are
    below 2^53 in magnitude, the only range the notebook touches, and its
    one division has a float divisor anyway.) *)
Definition truediv (x y : value) : result value :=
  rbind (coerce x y) (fun o =>
    match o with
    | Ints a b =>
        if b =? 0 then Raise ZeroDivisionError
        else rbind (float_of_int a) (fun a' =>
             rbind (float_of_int b) (fun b' => Ok (VFloat (a' / b')%float)))
    | Floats a b =>
        if (b =? 0)%float then Raise ZeroDivisionError
        else Ok (VFloat (a / b)%float)
    end).

(** [int(x)] *)
Definition int (x : value) : result value :=
  match x with
  | VInt z => Ok (VInt z)
  | VFloat f => rbind (int_of_float f) (fun z => Ok (VInt z))
  | _ => Raise TypeError
  end.

End Py.

(** ** The part of numpy the notebook calls *)

Module Np.

(** Number of elements of an array of the given shape. *)
Definition size (dims : list Z) : Z := fold_right Z.mul 1 dims.

(** An array of the given shape with every element equal to [x]. *)
Definition full (dims : list Z) (x : float) : ndarray :=
  mk_ndarray dims (replicate (Z.to_nat (size dims)) x).

(** The shape argument of an allocation: an int or a tuple of ints. *)
Definition dim_of (v : value) : result Z :=
  match v with
  | VInt n => Ok n
  | _ => Raise TypeError
  end.

Fixpoint dims_of_items (items : list value) : result (list Z) :=
  match items with
  | [] => Ok []
  | v :: items' =>
      rbind (dim_of v) (fun n =>
      rbind (dims_of_items items') (fun ns => Ok (n :: ns)))
  end.

Definition dims_of (v : value) : result (list Z) :=
  match v with
  | VInt n => Ok [n]
  | VTuple items => dims_of_items items
  | _ => Raise TypeError
  end.

(** The largest array dimension and byte count numpy can address
    ([npy_intp] is a signed 64-bit integer), and the largest rank. *)
Definition max_intp : Z := 2 ^ 63 - 1.
Definition max_dims : nat := 32.

(** The byte count of an array as numpy accumulates it: starting from the
    item size, one dimension at a time, skipping dimensions of size zero;
    [None] when a product leaves the [npy_intp] range. *)
Fixpoint nbytes (acc : Z) (dims : list Z) : option Z :=
  match dims with
  | [] => Some acc
  | d :: dims' =>
      if d =? 0 then nbytes acc dims'
      else if acc * d <=? max_intp then nbytes (acc * d) dims'
      else None
  end.

(** The shapes numpy accepts: at most [max_dims] dimensions, each within
    [0 .. max_intp], and an addressable byte count for 8-byte items. *)
Definition admissible (dims : list Z) : bool :=
  (length dims <=? max_dims)%nat
  && forallb (fun d => (0 <=? d) && (d <=? max_intp)) dims
  && match nbytes 8 dims with Some _ => true | None => false end.

(** [np.zeros(shape)]: a fresh float64 array of zeros.  A negative
    dimension, a dimension or a byte count beyond [max_intp], or too many
    dimensions is a [ValueError].  (Running out of memory is not
    modelled.) *)
Definition zeros (shp : value) : result ndarray :=
  rbind (dims_of shp) (fun dims =>
    if admissible dims then Ok (full dims 0%float)
    else Raise ValueError).

(** [np.arange(0, num, dtype=float64)] *)
Definition arange (num : Z) : list float :=
  map (fun i => Py.of_Z (Z.of_nat i)) (seq 0 (Z.to_nat num)).

(** [y[-1] = x] on a non-empty buffer. *)
Definition set_last (y : list float) (x : float) : list float :=
  <[ Nat.pred (length y) := x ]> y.

(** The samples of [np.linspace(start, stop, num)] with the default
    [endpoint=True], following numpy's own steps: the index vector is
    scaled by [step = (stop - start) / (num - 1)], shifted by [start], and
    the last sample is then overwritten with [stop]. *)
Definition linspace_step (start stop : float) (num : Z) : float :=
  ((stop - start) / Py.of_Z (num - 1))%float.

Definition linspace_data (start stop : float) (num : Z) : list float :=
  let div := num - 1 in
  let y := arange num in
  let delta := (stop - start)%float in
  let y :=
    if 1 <? num then
      let step := linspace_step start stop num in
      if (step =? 0)%float
      then map (fun v => (v / Py.of_Z div * delta)%float) y
      else map (fun v => (v * step)%float) y
    else map (fun v => (v * delta)%float) y in
  let y := map (fun v => (v + start)%float) y in
  if 1 <? num then set_last y stop else y.

(** [asanyarray(x) * 1.0] on a scalar argument. *)
Definition as_float (v : value) : result float :=
  match v with
  | VInt z => rbind (Py.float_of_int z) (fun f => Ok (f * 1)%float)
  | VFloat f => Ok (f * 1)%float
  | _ => Raise TypeError
  end.

(** [np.linspace(start, stop, num)]: [num] is checked first, then the
    ends are converted.  (The ends the notebook passes are floats and small
    ints; ints beyond the int64 range, which numpy keeps as objects, are
    outside the model.) *)
Definition linspace (start stop num : value) : result ndarray :=
  match num with
  | VInt n =>
      if n <? 0 then Raise ValueError
      else
        rbind (as_float start) (fun a =>
        rbind (as_float stop) (fun b =>
        Ok (mk_ndarray [n] (linspace_data a b n))))
  | _ => Raise TypeError
  end.

(** Element access [a[i1, ..., ik]] by non-negative indices: the
    row-major offset into the buffer, [None] for an index past the end, for
    the wrong number of indices, and for a negative index (numpy's counting
    from the end with negative indices is not modelled). *)
Fixpoint offset (dims idx : list Z) : option Z :=
  match dims, idx with
  | [], [] => Some 0
  | d :: dims', i :: idx' =>
      if (0 <=? i) && (i <? d)
      then option_map (fun o => i * size dims' + o) (offset dims' idx')
      else None
  | _, _ => None
  end.

Definition item (a : ndarray) (idx : list Z) : option float :=
  match offset (shape a) idx with
  | Some o => data a !! Z.to_nat o
  | None => None
  end.

End Np.

(** ** The interactive session *)

(** What [whos] reports in its Data/Info column. *)
Inductive info : Type :=
| InfoInt (z : Z)
| InfoFloat (f : float)
| InfoLen (n : nat)
| InfoArray (dims : list Z) (elems : Z) (dtype : string) (bytes : Z)
| InfoModule (name : string).

Record whos_row : Type := mk_row {
  row_variable : string;
  row_type : string;
  row_info : info
}.

(** The effects a statement of the notebook can have besides binding a
    name: having the interpreter import a module (which finds and reads the
    installed package, unless the kernel has loaded it before), allocating
    an array buffer, and printing a [whos] table. *)
Inductive effect : Type :=
| ImportModule (name : string)
| Alloc (dims : list Z)
| Display (table : list whos_row).

Record session : Type := mk_session {
  user_ns : gmap string value;
  effects : list effect
}.

(** Statements and expressions: state passing with exceptions.  An
    exception leaves the session as it was when it was raised. *)
Definition M (A : Type) : Type := session -> result A * session.

Definition ret {A : Type} (a : A) : M A := fun s => (Ok a, s).

Definition bind {A B : Type} (m : M A) (k : A -> M B) : M B :=
  fun s =>
    match m s with
    | (Ok a, s') => k a s'
    | (Raise e, s') => (Raise e, s')
    end.

Definition lift {A : Type} (r : result A) : M A := fun s => (r, s).

Declare Scope py_scope.
Delimit Scope py_scope with py.
Notation "x <- m ;; k" := (bind m (fun x => k))
  (at level 100, m at next level, right associativity) : py_scope.
Notation "m ;; k" := (bind m (fun _ => k))
  (at level 100, right associativity) : py_scope.
Local Open Scope py_scope.

(** Reading a name. *)
Definition var (x : string) : M value :=
  fun s =>
    match user_ns s !! x with
    | Some v => (Ok v, s)
    | None => (Raise (NameError x), s)
    end.

(** [x = e] *)
Definition assign (x : string) (e : M value) : M unit :=
  v <- e ;;
  fun s => (Ok tt, mk_session (<[x := v]> (user_ns s)) (effects s)).

Definition emit (ev : effect) : M unit :=
  fun s => (Ok tt, mk_session (user_ns s) (effects s ++ [ev])).

(** A binary operator: left operand first. *)
Definition binop (op : value -> value -> result value) (a b : M value)
  : M value :=
  x <- a ;; y <- b ;; lift (op x y).

(** A tuple display [(e1, ..., en)]. *)
Fixpoint eval_items (es : list (M value)) : M (list value) :=
  match es with
  | [] => ret []
  | e :: es' => v <- e ;; vs <- eval_items es' ;; ret (v :: vs)
  end.

Definition tuple (es : list (M value)) : M value :=
  vs <- eval_items es ;; ret (VTuple vs).

(** [int(e)], with [int] the builtin: a session variable named [int] would
    shadow it, and such sessions are outside the model (see [ordinary]). *)
Definition int_ (e : M value) : M value :=
  v <- e ;; lift (Py.int v).

(** A freshly allocated array becomes a value of the session. *)
Definition fresh (r : result ndarray) : M value :=
  a <- lift r ;; emit (Alloc (shape a)) ;; ret (VArray a).

(** [np.attr(args)]: [np] is looked up in the namespace like any other
    name; of the numpy module the notebook uses [zeros] and [linspace]. *)
Definition np_call (attr : string) (args : list (M value)) : M value :=
  m <- var "np" ;;
  match m with
  | VModule "numpy" =>
      if String.eqb attr "zeros" then
        vs <- eval_items args ;;
        match vs with
        | [shp] => fresh (Np.zeros shp)
        | _ => lift (Raise TypeError)
        end
      else if String.eqb attr "linspace" then
        vs <- eval_items args ;;
        match vs with
        | [start; stop; num] => fresh (Np.linspace start stop num)
        | _ => lift (Raise TypeError)
        end
      else lift (Raise (AttributeError attr))
  | _ => lift (Raise (AttributeError attr))
  end.

(** [import numpy as alias]: the interpreter imports the module, then the
    alias is bound to it.  numpy is taken to be installed, as the recorded
    outputs show it is. *)
Definition import_numpy_as (alias : string) : M unit :=
  emit (ImportModule "numpy") ;; assign alias (ret (VModule "numpy")).

(** *** [whos] *)

Definition describe (v : value) : string * info :=
  match v with
  | VInt z => ("int", InfoInt z)
  | VFloat f => ("float", InfoFloat f)
  | VTuple items => ("tuple", InfoLen (length items))
  | VArray a =>
      ("ndarray", InfoArray (shape a) (Np.size (shape a)) "float64"
                            (8 * Np.size (shape a)))
  | VModule name => ("module", InfoModule name)
  end.

Definition name_le (p q : string * value) : Prop := String.le p.1 q.1.

#[local] Instance name_le_dec p q : Decision (name_le p q).
Proof. unfold name_le, String.le. apply _. Defined.

(** Names that start with an underscore are left out by [whos]. *)
Definition underscore (x : string) : bool := String.prefix "_" x.

Definition listed (p : string * value) : Prop := underscore p.1 = false.

#[local] Instance listed_dec p : Decision (listed p).
Proof. unfold listed. apply _. Defined.

(** One row per listed variable, in the order of the names.  (The empty
    table stands for the line IPython prints when there is nothing to
    list.) *)
Definition whos_table (ns : gmap string value) : list whos_row :=
  map (fun p => mk_row p.1 (describe p.2).1 (describe p.2).2)
      (merge_sort name_le (filter listed (map_to_list ns))).

(** The [whos] magic, called without the percent sign: a session variable
    named [whos] would shadow it, and such sessions are outside the model
    (see [ordinary]). *)
Definition whos : M unit :=
  fun s => emit (Display (whos_table (user_ns s))) s.

(** ** The notebook *)

Notation "x ::= e" := (assign x e) (at level 95, no associativity) : py_scope.
Notation "a .- b" := (binop Py.sub a b) (at level 50, left associativity) : py_scope.
Notation "a .+ b" := (binop Py.add a b) (at level 50, left associativity) : py_scope.
Notation "a .* b" := (binop Py.mul a b) (at level 40, left associativity) : py_scope.
Notation "a ./ b" := (binop Py.truediv a b) (at level 40, left associativity) : py_scope.

Definition lit_int (z : Z) : M value := ret (VInt z).
Definition lit_float (f : float) : M value := ret (VFloat f).

(** [import numpy as np] *)
Definition cell_import : list (M unit) :=
  [ import_numpy_as "np" ].

(** Step 1: the results-shaped containers. *)
Definition cell_grid : list (M unit) :=
  [ "DX" ::= lit_float 0.5;
    "SOUTH" ::= lit_int (-30);
    "NORTH" ::= lit_int 30;
    "WEST" ::= lit_float 0.25;
    "EAST" ::= lit_float 359.75;
    "NLAT" ::= int_ ((var "NORTH" .- var "SOUTH") ./ var "DX");
    "lat" ::= np_call "linspace" [var "SOUTH"; var "NORTH"; var "NLAT"];
    "NLON" ::= int_ ((var "EAST" .- var "WEST") ./ var "DX");
    "lon" ::= np_call "linspace" [var "WEST"; var "EAST"; var "NLON"];
    "WV" ::= np_call "zeros" [tuple [var "NLON"; var "NLAT"]];
    "AT" ::= np_call "zeros" [tuple [var "NLON"; var "NLAT"]] ].

(** Step 2: containers for the quantities the products are made of. *)
Definition cell_before_after : list (M unit) :=
  [ "WV_before" ::= np_call "zeros" [tuple [var "NLON"; var "NLAT"]];
    "WV_after" ::= np_call "zeros" [tuple [var "NLON"; var "NLAT"]];
    "dt_before" ::= np_call "zeros" [tuple [var "NLON"; var "NLAT"]];
    "dt_after" ::= np_call "zeros" [tuple [var "NLON"; var "NLAT"]] ].

(** The two time stacks. *)
Definition cell_stack : list (M unit) :=
  [ "DTMAX" ::= lit_int 6;
    "DTstack" ::= lit_int 1;
    "WV_stack" ::=
      np_call "zeros" [tuple [var "NLON"; var "NLAT"; lit_int 2 .* var "DTMAX" .+ lit_int 1]];
    "tobs_stack" ::=
      np_call "zeros" [tuple [var "NLON"; var "NLAT"; lit_int 2 .* var "DTMAX" .+ lit_int 1]] ].

(** The code cells in document order; the last one is empty. *)
Definition code_cells : list (list (M unit)) :=
  [ cell_import;
    cell_grid; [whos];
    cell_before_after; [whos];
    cell_stack; [whos];
    [] ].

Definition notebook : list (M unit) := concat code_cells.

(** Running statements in order; the first exception stops the run. *)
Fixpoint exec (p : list (M unit)) : M unit :=
  match p with
  | [] => ret tt
  | c :: p' => c ;; exec p'
  end.

Definition run (s : session) : result unit * session := exec notebook s.

(** The session after the first [n] statements. *)
Definition run_upto (n : nat) (s : session) : result unit * session :=
  exec (firstn n notebook) s.

(** The session the whole notebook leaves behind. *)
Definition final (s : session) : session := (run s).2.

(** A freshly started kernel. *)
Definition fresh_kernel : session := mk_session ∅ [].

(** ** What the statements compute *)

(** The values the notebook binds, named as in the source. *)
Definition NLAT : Z := 120.
Definition NLON : Z := 719.
Definition DTMAX : Z := 6.

Definition lat : ndarray :=
  mk_ndarray [NLAT] (Np.linspace_data (-30) 30 NLAT).
Definition lon : ndarray :=
  mk_ndarray [NLON] (Np.linspace_data 0.25 359.75 NLON).

Definition grid_zeros : ndarray := Np.full [NLON; NLAT] 0.
Definition stack_zeros : ndarray := Np.full [NLON; NLAT; 2 * DTMAX + 1] 0.

(** The net effect of one statement on the session. *)
Inductive outcome : Type :=
| Binds (x : string) (v : value) (evs : list effect)
| Displays.

Definition apply_outcome (s : session) (o : outcome) : session :=
  match o with
  | Binds x v evs => mk_session (<[x := v]> (user_ns s)) (effects s ++ evs)
  | Displays =>
      mk_session (user_ns s) (effects s ++ [Display (whos_table (user_ns s))])
  end.

Definition allocates (x : string) (a : ndarray) : outcome :=
  Binds x (VArray a) [Alloc (shape a)].

Definition outcomes : list outcome :=
  [ Binds "np" (VModule "numpy") [ImportModule "numpy"];
    Binds "DX" (VFloat 0.5) [];
    Binds "SOUTH" (VInt (-30)) [];
    Binds "NORTH" (VInt 30) [];
    Binds "WEST" (VFloat 0.25) [];
    Binds "EAST" (VFloat 359.75) [];
    Binds "NLAT" (VInt NLAT) [];
    allocates "lat" lat;
    Binds "NLON" (VInt NLON) [];
    allocates "lon" lon;
    allocates "WV" grid_zeros;
    allocates "AT" grid_zeros;
    Displays;
    allocates "WV_before" grid_zeros;
    allocates "WV_after" grid_zeros;
    allocates "dt_before" grid_zeros;
    allocates "dt_after" grid_zeros;
    Displays;
    Binds "DTMAX" (VInt DTMAX) [];
    Binds "DTstack" (VInt 1) [];
    allocates "WV_stack" stack_zeros;
    allocates "tobs_stack" stack_zeros;
    Displays ].

Definition session_upto (n : nat) (s : session) : session :=
  foldl apply_outcome s (take n outcomes).

(** Looking a name up after a sequence of outcomes: the last binding of the
    name wins, otherwise the earlier value stays. *)
Definition rebind (x : string) (d : option value) (o : outcome)
  : option value :=
  match o with
  | Binds y v _ => if decide (y = x) then Some v else d
  | Displays => d
  end.

Definition rebinds (x : string) (o : outcome) : bool :=
  match o with
  | Binds y _ _ => bool_decide (y = x)
  | Displays => false
  end.

(** The names a sequence of outcomes binds, in order. *)
Definition names (os : list outcome) : list string :=
  omap (fun o => match o with Binds x _ _ => Some x | Displays => None end) os.

Definition assigned : list string := names outcomes.

(** The containers: name, index of the allocating statement, and whether
    it is one of the two time stacks. *)
Definition containers : list (string * nat * bool) :=
  [ ("WV", 10%nat, false); ("AT", 11%nat, false);
    ("WV_before", 13%nat, false); ("WV_after", 14%nat, false);
    ("dt_before", 15%nat, false); ("dt_after", 16%nat, false);
    ("WV_stack", 20%nat, true); ("tobs_stack", 21%nat, true) ].

Definition container_shape (stack : bool) : list Z :=
  if stack then [NLON; NLAT; 2 * DTMAX + 1] else [NLON; NLAT].

Definition container_value (stack : bool) : ndarray :=
  if stack then stack_zeros else grid_zeros.

(** An array whose buffer has the size its shape asks for and holds
    nothing but zeros. *)
Definition all_zero (a : ndarray) : Prop :=
  length (data a) = Z.to_nat (Np.size (shape a))
  /\ Forall (fun v => v = 0%float) (data a).

(** ** Exact values of the coordinate vectors *)

(** The constants of the grid as exact rationals. *)
Definition DX : Q := 1 # 2.
Definition SOUTH : Q := -30 # 1.
Definition NORTH : Q := 30 # 1.
Definition WEST : Q := 1 # 4.
Definition EAST : Q := 1439 # 4.

(** The rational a numeric value denotes. *)
Definition exact_value (v : value) : option Q :=
  match v with
  | VInt z => Some (inject_Z z)
  | VFloat f => Py.to_Q f
  | _ => None
  end.

Definition quantity (ns : gmap string value) (x : string) : option Q :=
  ns !! x ≫= exact_value.

(** The rationals an array holds, when all its elements are finite. *)
Definition rationals (a : ndarray) : option (list Q) :=
  mapM Py.to_Q (data a).

(** Differences of adjacent elements. *)
Definition gaps (l : list Q) : list Q :=
  zip_with (fun a b => (b - a)%Q) l (tail l).

(** The spacing of [num] evenly spaced samples from [lo] to [hi], both
    ends included. *)
Definition spacing (lo hi : Q) (num : Z) : Q :=
  ((hi - lo) / inject_Z (num - 1))%Q.

(** [2^-k] *)
Definition binade (k : positive) : Q := 1 # (2 ^ k).

(** Evenly spaced samples in exact arithmetic: sample [i] is
    [lo + i * spacing lo hi num].  This is the real-number reading of
    linspace, against which the binary64 samples are compared. *)
Definition ideal_samples (lo hi : Q) (num : Z) : list Q :=
  map (fun i => (lo + inject_Z (Z.of_nat i) * spacing lo hi num)%Q)
      (seq 0 (Z.to_nat num)).

Definition close (tol a b : Q) : Prop := (Qabs (a - b) <= tol)%Q.

Definition close_b (tol a b : Q) : bool := Qle_bool (Qabs (a - b)) tol.

Fixpoint all_close_b (tol : Q) (l k : list Q) : bool :=
  match l, k with
  | [], [] => true
  | a :: l', b :: k' => close_b tol a b && all_close_b tol l' k'
  | _, _ => false
  end.

Definition Qltb (x y : Q) : bool :=
  Qnum x * Z.pos (Qden y) <? Qnum y * Z.pos (Qden x).

Fixpoint increasing_b (l : list Q) : bool :=
  match l with
  | a :: (b :: _) as l' => Qltb a b && increasing_b l'
  | _ => true
  end.

(** Within [tol] of [step], and different from [dx]. *)
Definition gap_ok (step tol dx d : Q) : Prop :=
  (Qabs (d - step) <= tol)%Q /\ ~ (d == dx)%Q.

Definition gap_ok_b (step tol dx d : Q) : bool :=
  Qle_bool (Qabs (d - step)) tol && negb (Qeq_bool d dx).

Definition inside_b (lo hi x : Q) : bool := Qltb lo x && Qltb x hi.

(** A property of the rationals of an array, decided by evaluation. *)
Definition holds_b (a : ndarray) (b : list Q -> bool) : bool :=
  match rationals a with
  | Some qs => b qs
  | None => false
  end.

(** ** The output cells recorded in the notebook *)

Definition grid_row (x : string) : whos_row :=
  mk_row x "ndarray" (InfoArray [719; 120] 86280 "float64" 690240).
Definition stack_row (x : string) : whos_row :=
  mk_row x "ndarray" (InfoArray [719; 120; 13] 1121640 "float64" 8973120).
Definition lat_row : whos_row :=
  mk_row "lat" "ndarray" (InfoArray [120] 120 "float64" 960).
Definition lon_row : whos_row :=
  mk_row "lon" "ndarray" (InfoArray [719] 719 "float64" 5752).
Definition np_row : whos_row := mk_row "np" "module" (InfoModule "numpy").

Definition recorded_whos_1 : list whos_row :=
  [ grid_row "AT";
    mk_row "DX" "float" (InfoFloat 0.5);
    mk_row "EAST" "float" (InfoFloat 359.75);
    mk_row "NLAT" "int" (InfoInt 120);
    mk_row "NLON" "int" (InfoInt 719);
    mk_row "NORTH" "int" (InfoInt 30);
    mk_row "SOUTH" "int" (InfoInt (-30));
    mk_row "WEST" "float" (InfoFloat 0.25);
    grid_row "WV";
    lat_row; lon_row; np_row ].

Definition recorded_whos_2 : list whos_row :=
  [ grid_row "AT";
    mk_row "DX" "float" (InfoFloat 0.5);
    mk_row "EAST" "float" (InfoFloat 359.75);
    mk_row "NLAT" "int" (InfoInt 120);
    mk_row "NLON" "int" (InfoInt 719);
    mk_row "NORTH" "int" (InfoInt 30);
    mk_row "SOUTH" "int" (InfoInt (-30));
    mk_row "WEST" "float" (InfoFloat 0.25);
    grid_row "WV"; grid_row "WV_after"; grid_row "WV_before";
    grid_row "dt_after"; grid_row "dt_before";
    lat_row; lon_row; np_row ].

Definition recorded_whos_3 : list whos_row :=
  [ grid_row "AT";
    mk_row "DTMAX" "int" (InfoInt 6);
    mk_row "DTstack" "int" (InfoInt 1);
    mk_row "DX" "float" (InfoFloat 0.5);
    mk_row "EAST" "float" (InfoFloat 359.75);
    mk_row "NLAT" "int" (InfoInt 120);
    mk_row "NLON" "int" (InfoInt 719);
    mk_row "NORTH" "int" (InfoInt 30);
    mk_row "SOUTH" "int" (InfoInt (-30));
    mk_row "WEST" "float" (InfoFloat 0.25);
    grid_row "WV"; grid_row "WV_after"; grid_row "WV_before";
    stack_row "WV_stack";
    grid_row "dt_after"; grid_row "dt_before";
    lat_row; lon_row; np_row;
    stack_row "tobs_stack" ].

Definition displayed (s : session) : list (list whos_row) :=
  omap (fun ev => match ev with Display t => Some t | _ => None end)
       (effects s).

(** ** Ordinary sessions *)

(** Names the model does not follow when a session binds them: the builtin
    [int] and the magic [whos], which the notebook calls, and the names
    IPython keeps for its own bookkeeping and rebinds as cells run (the
    underscore names, [In], [Out] and the like). *)
Definition special_name (x : string) : bool :=
  underscore x
  || bool_decide (x ∈ ["int"; "whos"; "In"; "Out"; "exit"; "quit";
                       "get_ipython"]).

(** A session whose variables all have ordinary names; a fresh kernel is
    one. *)
Definition ordinary (s : session) : Prop :=
  map_Forall (fun x _ => special_name x = false) (user_ns s).



(** ** The statements of the allocation cells, by form *)

(** [x = int( (hi-lo)/DX )] *)
Definition size_statement (x hi lo : string) : M unit :=
  x ::= int_ ((var hi .- var lo) ./ var "DX").

(** [x = np.linspace(lo, hi, n)] *)
Definition linspace_statement (x lo hi n : string) : M unit :=
  x ::= np_call "linspace" [var lo; var hi; var n].

(** [x = np.zeros( (NLON,NLAT) )] *)
Definition grid_statement (x : string) : M unit :=
  x ::= np_call "zeros" [tuple [var "NLON"; var "NLAT"]].

(** [x = np.zeros( (NLON,NLAT, 2*DTMAX+1) )] *)
Definition stack_statement (x : string) : M unit :=
  x ::= np_call "zeros"
          [tuple [var "NLON"; var "NLAT";
                  lit_int 2 .* var "DTMAX" .+ lit_int 1]].

(** The names bound by the before/after cell, in order. *)
Definition before_after : list string :=
  ["WV_before"; "WV_after"; "dt_before"; "dt_after"].

(** The value [int] gives for a float of exact value [q]: the integer part,
    rounded towards zero. *)
Definition truncate (q : Q) : Z :=
  if Qle_bool 0 q then Qfloor q else Qceiling q.

(** A name other than the ones the allocation statements read. *)
Definition reserved (x : string) : Prop :=
  x <> "np" /\ x <> "NLON" /\ x <> "NLAT" /\ x <> "DTMAX".

(** What the stack cell does to a session whose grid sizes are [a], [b]. *)
Definition stack_outcomes (a b : Z) : list outcome :=
  [ Binds "DTMAX" (VInt 6) [];
    Binds "DTstack" (VInt 1) [];
    allocates "WV_stack" (Np.full [a; b; 13] 0);
    allocates "tobs_stack" (Np.full [a; b; 13] 0) ].

Definition before_after_outcomes (a b : Z) : list outcome :=
  map (fun x => allocates x (Np.full [a; b] 0)) before_after.

(** The difference [hi - lo] of a grid-size statement as the float the
    division receives. *)
Definition float_difference (vh vl : value) : result float :=
  rbind (Py.sub vh vl) (fun diff =>
    match diff with
    | VInt z => Py.float_of_int z
    | VFloat f => Ok f
    | _ => Raise TypeError
    end).

(** The size in bytes of the largest array the notebook itself allocates,
    as its last output cell records it. *)
Definition largest_recorded_bytes : Z := 8973120.

(** ** Every statement has its outcome *)

#[local] Arguments Np.full : simpl never.
#[local] Arguments Np.linspace_data : simpl never.
#[local] Arguments whos_table : simpl never.

(** *** Looking a name up after a sequence of outcomes *)

Lemma lookup_apply_outcome (s : session) (o : outcome) (x : string) :
  user_ns (apply_outcome s o) !! x = rebind x (user_ns s !! x) o.
Proof.
  destruct o as [y v evs|]; cbn [apply_outcome user_ns rebind]; [|done].
  by rewrite lookup_insert.
Qed.

Lemma lookup_foldl_outcomes (os : list outcome) (s : session) (x : string) :
  user_ns (foldl apply_outcome s os) !! x
  = foldl (rebind x) (user_ns s !! x) os.
Proof.
  revert s. induction os as [|o os IH]; intros s; cbn [foldl]; [done|].
  by rewrite IH, lookup_apply_outcome.
Qed.

Lemma lookup_session_upto (n : nat) (s : session) (x : string) :
  user_ns (session_upto n s) !! x
  = foldl (rebind x) (user_ns s !! x) (take n outcomes).
Proof. apply lookup_foldl_outcomes. Qed.

(** *** One statement at a time *)

Section Statements.
Variable s : session.

Lemma assign_outcome (x : string) (e : M value) (v : value)
      (evs : list effect) :
  e s = (Ok v, mk_session (user_ns s) (effects s ++ evs)) ->
  (x ::= e) s = (Ok tt, apply_outcome s (Binds x v evs)).
Proof. intros He. unfold assign, bind. by rewrite He. Qed.

Lemma literal_outcome (x : string) (v : value) :
  (x ::= ret v) s = (Ok tt, apply_outcome s (Binds x v [])).
Proof.
  apply assign_outcome. unfold ret. rewrite app_nil_r. by destruct s.
Qed.

Lemma whos_outcome : whos s = (Ok tt, apply_outcome s Displays).
Proof. reflexivity. Qed.

Lemma import_outcome (alias : string) :
  import_numpy_as alias s
  = (Ok tt, apply_outcome s (Binds alias (VModule "numpy")
                                   [ImportModule "numpy"])).
Proof. reflexivity. Qed.

Hypothesis Hnp : user_ns s !! "np" = Some (VModule "numpy").

Lemma cells_outcome (a b c x : string) (va vb vc : value) (n : Z) :
  user_ns s !! a = Some va ->
  user_ns s !! b = Some vb ->
  user_ns s !! c = Some vc ->
  rbind (rbind (Py.sub va vb) (fun d => Py.truediv d vc)) Py.int
    = Ok (VInt n) ->
  (x ::= int_ ((var a .- var b) ./ var c)) s
    = (Ok tt, apply_outcome s (Binds x (VInt n) [])).
Proof.
  intros Ha Hb Hc Hn. apply assign_outcome.
  unfold int_, binop, bind, var, lift. rewrite Ha, Hb, Hc.
  destruct (Py.sub va vb) as [d|]; [|discriminate Hn].
  cbn [rbind] in Hn.
  destruct (Py.truediv d vc) as [q|]; [|discriminate Hn].
  cbn [rbind] in Hn. rewrite Hn, app_nil_r. by destruct s.
Qed.

Lemma linspace_outcome (a b c x : string) (va vb vc : value) (arr : ndarray) :
  user_ns s !! a = Some va ->
  user_ns s !! b = Some vb ->
  user_ns s !! c = Some vc ->
  Np.linspace va vb vc = Ok arr ->
  (x ::= np_call "linspace" [var a; var b; var c]) s
    = (Ok tt, apply_outcome s (allocates x arr)).
Proof.
  intros Ha Hb Hc Harr. apply assign_outcome.
  unfold np_call, bind, var, eval_items, fresh, lift, emit, ret.
  rewrite Hnp. cbn [String.eqb Ascii.eqb Bool.eqb]. cbn [bind].
  unfold bind. rewrite Ha, Hb, Hc, Harr. reflexivity.
Qed.

Lemma zeros_outcome (es : list (M value)) (vs : list value) (x : string)
      (arr : ndarray) :
  eval_items es s = (Ok vs, s) ->
  Np.zeros (VTuple vs) = Ok arr ->
  (x ::= np_call "zeros" [tuple es]) s
    = (Ok tt, apply_outcome s (allocates x arr)).
Proof.
  intros Hes Harr. apply assign_outcome.
  unfold np_call, bind, var, fresh, lift, emit, ret.
  rewrite Hnp. cbn [String.eqb Ascii.eqb Bool.eqb eval_items].
  unfold tuple, bind, ret. rewrite Hes, Harr. reflexivity.
Qed.

Lemma grid_shape_items :
  user_ns s !! "NLON" = Some (VInt NLON) ->
  user_ns s !! "NLAT" = Some (VInt NLAT) ->
  eval_items [var "NLON"; var "NLAT"] s = (Ok [VInt NLON; VInt NLAT], s).
Proof.
  intros H1 H2. unfold eval_items, bind, var, ret. by rewrite H1, H2.
Qed.

Lemma stack_shape_items :
  user_ns s !! "NLON" = Some (VInt NLON) ->
  user_ns s !! "NLAT" = Some (VInt NLAT) ->
  user_ns s !! "DTMAX" = Some (VInt DTMAX) ->
  eval_items [var "NLON"; var "NLAT";
              lit_int 2 .* var "DTMAX" .+ lit_int 1] s
    = (Ok [VInt NLON; VInt NLAT; VInt (2 * DTMAX + 1)], s).
Proof.
  intros H1 H2 H3.
  unfold eval_items, binop, lit_int, bind, var, ret, lift.
  rewrite H1, H2. cbv beta iota. by rewrite H3.
Qed.

End Statements.

Ltac known_name := rewrite lookup_session_upto; reflexivity.

Lemma statement_outcome (k : nat) (c : M unit) (o : outcome) (s : session) :
  notebook !! k = Some c ->
  outcomes !! k = Some o ->
  c (session_upto k s) = (Ok tt, apply_outcome (session_upto k s) o).
Proof.
  intros Hc Ho.
  do 23 (destruct k as [|k];
         [ injection Hc as <-; injection Ho as <-;
           first
             [ apply literal_outcome
             | apply import_outcome
             | apply whos_outcome
             | eapply cells_outcome; [known_name ..| reflexivity]
             | eapply linspace_outcome; [known_name ..| reflexivity]
             | eapply zeros_outcome;
               [ known_name
               | first [ apply grid_shape_items | apply stack_shape_items ];
                 known_name
               | reflexivity ] ]
         | ]).
  discriminate Hc.
Qed.

(** *** The whole run *)

Lemma exec_snoc (p : list (M unit)) (c : M unit) (s : session) :
  exec (p ++ [c]) s
  = match exec p s with
    | (Ok _, s') => c s'
    | (Raise e, s') => (Raise e, s')
    end.
Proof.
  revert s. induction p as [|c' p IH]; intros s; cbn [exec app].
  - unfold bind, ret. destruct (c s) as [[[]|e] s']; reflexivity.
  - unfold bind. destruct (c' s) as [[[]|e] s']; [apply IH|reflexivity].
Qed.

Lemma length_notebook : length notebook = 23%nat.
Proof. reflexivity. Qed.

Lemma length_outcomes : length outcomes = 23%nat.
Proof. reflexivity. Qed.

(** Every prefix of the notebook runs to completion, and the session it
    leaves is the one the outcomes describe. *)
Lemma run_upto_outcomes (n : nat) (s : session) :
  run_upto n s = (Ok tt, session_upto n s).
Proof.
  unfold run_upto. induction n as [|n IH]; [reflexivity|].
  destruct (decide (n < 23)%nat) as [Hlt|Hge].
  - destruct (lookup_lt_is_Some_2 notebook n) as [c Hc];
      [rewrite length_notebook; lia|].
    destruct (lookup_lt_is_Some_2 outcomes n) as [o Ho];
      [rewrite length_outcomes; lia|].
    rewrite (take_S_r _ _ _ Hc), exec_snoc, IH.
    rewrite (statement_outcome n c o s Hc Ho).
    unfold session_upto. by rewrite (take_S_r _ _ _ Ho), foldl_snoc.
  - unfold session_upto in *.
    rewrite (take_ge notebook (S n)) by (rewrite length_notebook; lia).
    rewrite (take_ge outcomes (S n)) by (rewrite length_outcomes; lia).
    rewrite (take_ge notebook n) in IH by (rewrite length_notebook; lia).
    rewrite (take_ge outcomes n) in IH by (rewrite length_outcomes; lia).
    exact IH.
Qed.

Lemma run_outcomes (s : session) :
  run s = (Ok tt, foldl apply_outcome s outcomes).
Proof.
  change (run s) with (exec notebook s).
  rewrite <- (take_ge notebook 23) by (rewrite length_notebook; lia).
  change (exec (take 23 notebook) s) with (run_upto 23 s).
  rewrite run_upto_outcomes. unfold session_upto.
  by rewrite take_ge by (rewrite length_outcomes; lia).
Qed.

(** The error paths are live: without the import the first numpy call
    raises, and a zero cell size or a negative dimension would too. *)
Example grid_cell_needs_import :
  (exec cell_grid fresh_kernel).1 = Raise (NameError "np").
Proof. vm_compute. reflexivity. Qed.

Example stack_cell_needs_grid :
  (exec (cell_import ++ cell_stack) fresh_kernel).1
  = Raise (NameError "NLON").
Proof. vm_compute. reflexivity. Qed.

Example zero_cell_size :
  Py.truediv (VInt 60) (VFloat 0) = Raise ZeroDivisionError.
Proof. vm_compute. reflexivity. Qed.

Example negative_dimension :
  Np.zeros (VTuple [VInt 719; VInt (-120)]) = Raise ValueError.
Proof. vm_compute. reflexivity. Qed.

Example linspace_seven :
  Np.linspace (VInt (-30)) (VInt 30) (VInt 7)
  = Ok (mk_ndarray [7] [-30; -20; -10; 0; 10; 20; 30]%float).
Proof. vm_compute. reflexivity. Qed.

(** The recorded output cells are what [whos] prints in a fresh kernel. *)
Example whos_as_recorded :
  displayed (final fresh_kernel)
  = [recorded_whos_1; recorded_whos_2; recorded_whos_3].
Proof. vm_compute. reflexivity. Qed.

(** *** Bindings persist until the name is bound again *)

Lemma rebind_other (x : string) (d : option value) (o : outcome) :
  rebinds x o = false -> rebind x d o = d.
Proof.
  destruct o as [y v evs|]; cbn [rebinds rebind]; [|done].
  intros H%bool_decide_eq_false. by rewrite decide_False.
Qed.

Lemma foldl_rebind_others (x : string) (os : list outcome) :
  Forall (fun o => rebinds x o = false) os ->
  forall d, foldl (rebind x) d os = d.
Proof.
  induction 1 as [|o os Ho _ IH]; intros d; cbn [foldl]; [done|].
  by rewrite rebind_other.
Qed.

Lemma binding_persists (os : list outcome) (k n : nat) (x : string)
      (v : value) (evs : list effect) (d : option value) :
  os !! k = Some (Binds x v evs) ->
  Forall (fun o => rebinds x o = false) (drop (S k) os) ->
  (k < n)%nat ->
  foldl (rebind x) d (take n os) = Some v.
Proof.
  intros Hk Hrest Hlt.
  replace n with (S k + (n - S k))%nat by lia.
  rewrite <- take_take_drop, foldl_app, (take_S_r _ _ _ Hk), foldl_snoc.
  cbn [rebind]. rewrite decide_True by done.
  apply foldl_rebind_others. by apply Forall_take.
Qed.

Lemma names_not_rebinds (x : string) (os : list outcome) :
  ~ In x (names os) -> Forall (fun o => rebinds x o = false) os.
Proof.
  induction os as [|[y v evs|] os IH]; cbn; intros Hx; constructor.
  - apply bool_decide_eq_false. tauto.
  - apply IH. tauto.
  - reflexivity.
  - by apply IH.
Qed.


(** *** The session at and after the run *)

Lemma final_session (s : session) : final s = foldl apply_outcome s outcomes.
Proof. unfold final. by rewrite run_outcomes. Qed.

Lemma lookup_final (s : session) (x : string) :
  user_ns (final s) !! x = foldl (rebind x) (user_ns s !! x) outcomes.
Proof. rewrite final_session. apply lookup_foldl_outcomes. Qed.

Lemma lookup_run_upto (n : nat) (s : session) (x : string) :
  user_ns (run_upto n s).2 !! x
  = foldl (rebind x) (user_ns s !! x) (take n outcomes).
Proof. rewrite run_upto_outcomes. apply lookup_session_upto. Qed.

Lemma final_run_upto (s : session) : final s = (run_upto 23 s).2.
Proof.
  rewrite final_session, run_upto_outcomes. unfold session_upto.
  by rewrite take_ge by (rewrite length_outcomes; lia).
Qed.

Lemma assigned_determined (x : string) :
  In x assigned ->
  exists v, forall s, user_ns (final s) !! x = Some v.
Proof.
  intros Hx. cbn in Hx.
  repeat (destruct Hx as [<-|Hx];
          [eexists; intros s; rewrite lookup_final; reflexivity|]).
  destruct Hx.
Qed.

Lemma container_allocated (x : string) (k : nat) (stack : bool) :
  In (x, k, stack) containers ->
  outcomes !! k = Some (allocates x (container_value stack))
  /\ Forall (fun o => rebinds x o = false) (drop (S k) outcomes).
Proof.
  intros Hc. cbn in Hc.
  repeat (destruct Hc as [[= <- <- <-]|Hc];
          [split; [reflexivity|cbn [drop outcomes]; repeat constructor]|]).
  destruct Hc.
Qed.

Lemma container_after (s : session) (n : nat) (x : string) (k : nat)
      (stack : bool) :
  In (x, k, stack) containers -> (k < n)%nat ->
  user_ns (run_upto n s).2 !! x = Some (VArray (container_value stack)).
Proof.
  intros [Hk Hrest]%container_allocated Hlt. rewrite lookup_run_upto.
  by eapply binding_persists.
Qed.

(** *** Arrays filled with one value *)

Lemma offset_in_bounds (dims idx : list Z) :
  Forall2 (fun d i => 0 <= i < d) dims idx ->
  exists o, Np.offset dims idx = Some o /\ 0 <= o < Np.size dims.
Proof.
  induction 1 as [|d i dims idx Hi _ (o & Ho & Hrange)]; cbn.
  - exists 0. split; [done|lia].
  - rewrite Ho. cbn.
    destruct (Z.leb_spec 0 i); [|lia]. destruct (Z.ltb_spec i d); [|lia].
    cbn. eexists. split; [done|]. fold (Np.size dims). nia.
Qed.

Lemma offset_is_Some (dims idx : list Z) :
  is_Some (Np.offset dims idx) ->
  Forall2 (fun d i => 0 <= i < d) dims idx.
Proof.
  revert idx. induction dims as [|d dims IH]; intros [|i idx]; cbn;
    try (intros [? [=]]; fail).
  - constructor.
  - destruct (Z.leb_spec 0 i); cbn; [|intros [? [=]]].
    destruct (Z.ltb_spec i d); cbn; [|intros [? [=]]].
    intros [o Ho]. constructor; [lia|]. apply IH.
    destruct (Np.offset dims idx); [done|discriminate Ho].
Qed.

Lemma item_full (dims idx : list Z) (x : float) :
  Forall2 (fun d i => 0 <= i < d) dims idx ->
  Np.item (Np.full dims x) idx = Some x.
Proof.
  intros (o & Ho & Hrange)%offset_in_bounds.
  unfold Np.item, Np.full. cbn [shape data]. rewrite Ho.
  apply lookup_replicate_2. lia.
Qed.

Lemma item_full_is_Some (dims idx : list Z) (x : float) :
  is_Some (Np.item (Np.full dims x) idx)
  <-> Forall2 (fun d i => 0 <= i < d) dims idx.
Proof.
  split; [|intros H; rewrite item_full; done].
  unfold Np.item, Np.full. cbn [shape data]. intros Hs.
  apply offset_is_Some. destruct (Np.offset dims idx); [done|].
  by destruct Hs.
Qed.

Lemma all_zero_full (dims : list Z) : all_zero (Np.full dims 0).
Proof.
  split; cbn [Np.full data shape].
  - apply length_replicate.
  - by apply Forall_replicate.
Qed.

Lemma all_zero_container (stack : bool) : all_zero (container_value stack).
Proof. destruct stack; apply all_zero_full. Qed.

Lemma shape_container (stack : bool) :
  shape (container_value stack) = container_shape stack.
Proof. by destruct stack. Qed.



(** *** Deciding properties of the coordinate vectors *)

Lemma Qltb_lt (x y : Q) : Qltb x y = true -> (x < y)%Q.
Proof. unfold Qltb, Qlt. apply Z.ltb_lt. Qed.

Lemma increasing_b_sorted (l : list Q) :
  increasing_b l = true -> StronglySorted Qlt l.
Proof.
  intros H. apply Sorted_StronglySorted; [exact Qlt_trans|].
  induction l as [|a [|b l] IH]; [constructor|by repeat constructor|].
  cbn [increasing_b] in H. apply andb_true_iff in H as [Hab Hl].
  constructor; [by apply IH|]. constructor. by apply Qltb_lt.
Qed.

Lemma gap_ok_b_spec (step tol dx d : Q) :
  gap_ok_b step tol dx d = true -> gap_ok step tol dx d.
Proof.
  unfold gap_ok_b, gap_ok. intros [H1 H2]%andb_true_iff. split.
  - by apply Qle_bool_iff.
  - apply Qeq_bool_neq. by destruct (Qeq_bool d dx).
Qed.

Lemma forallb_gap_ok (step tol dx : Q) (l : list Q) :
  forallb (gap_ok_b step tol dx) l = true -> Forall (gap_ok step tol dx) l.
Proof.
  rewrite forallb_forall, Forall_forall. intros H d Hd.
  apply gap_ok_b_spec, H. by apply list_elem_of_In.
Qed.

Lemma forallb_inside (lo hi : Q) (l : list Q) :
  forallb (inside_b lo hi) l = true ->
  Forall (fun q => (lo < q)%Q /\ (q < hi)%Q) l.
Proof.
  rewrite forallb_forall, Forall_forall. intros H q Hq.
  apply list_elem_of_In, H, andb_true_iff in Hq as [H1 H2].
  split; by apply Qltb_lt.
Qed.

Lemma holds_b_spec (a : ndarray) (b : list Q -> bool) (P : list Q -> Prop) :
  (forall qs, b qs = true -> P qs) ->
  holds_b a b = true ->
  forall qs, rationals a = Some qs -> P qs.
Proof.
  intros Hb H qs Hqs. unfold holds_b in H. rewrite Hqs in H. by apply Hb.
Qed.

Lemma rationals_is_Some (a : ndarray) :
  holds_b a (fun _ => true) = true -> exists qs, rationals a = Some qs.
Proof.
  unfold holds_b. destruct (rationals a) as [qs|]; [eauto|discriminate].
Qed.

Lemma length_rationals (a : ndarray) (qs : list Q) :
  rationals a = Some qs -> length qs = length (data a).
Proof.
  unfold rationals. intros H. symmetry. by eapply length_mapM.
Qed.

Lemma length_gaps (l : list Q) : length (gaps l) = Nat.pred (length l).
Proof.
  unfold gaps. destruct l as [|a l]; [done|].
  rewrite length_zip_with. cbn [tail length Nat.pred]. apply Nat.min_r. lia.
Qed.

Lemma rationals_lookup (a : ndarray) (qs : list Q) (i : nat) (f : float) :
  rationals a = Some qs -> data a !! i = Some f -> Py.to_Q f = qs !! i.
Proof.
  unfold rationals. intros H%mapM_Some Hf.
  destruct (Forall2_lookup_l _ _ _ _ _ H Hf) as (q & -> & Hq). done.
Qed.

Lemma all_close_b_spec (tol : Q) (l k : list Q) :
  all_close_b tol l k = true -> Forall2 (close tol) l k.
Proof.
  revert k. induction l as [|a l IH]; intros [|b k]; cbn;
    try discriminate; [constructor|].
  intros [H1 H2]%andb_true_iff. constructor; [|by apply IH].
  by apply Qle_bool_iff.
Qed.

Lemma gaps_evenly_spaced (lo step : Q) (n start : nat) :
  Forall (fun d => (d == step)%Q)
         (gaps (map (fun i => (lo + inject_Z (Z.of_nat i) * step)%Q)
                    (seq start n))).
Proof.
  revert start. induction n as [|n IH]; intros start; [constructor|].
  destruct n as [|n]; [constructor|].
  specialize (IH (S start)). cbn [seq map] in IH |- *.
  unfold gaps in IH |- *. cbn [tail zip_with] in IH |- *.
  constructor; [|exact IH].
  rewrite Nat2Z.inj_succ, <- Z.add_1_r, inject_Z_plus. ring.
Qed.

Lemma gaps_ideal_samples (lo hi : Q) (num : Z) :
  Forall (fun d => (d == spacing lo hi num)%Q)
         (gaps (ideal_samples lo hi num)).
Proof. apply gaps_evenly_spaced. Qed.

(** *** The coordinate vectors *)

Lemma rationals_lat : exists qs, rationals lat = Some qs.
Proof. apply rationals_is_Some. vm_compute. reflexivity. Qed.

Lemma rationals_lon : exists qs, rationals lon = Some qs.
Proof. apply rationals_is_Some. vm_compute. reflexivity. Qed.

Lemma lat_increasing (qs : list Q) :
  rationals lat = Some qs -> StronglySorted Qlt qs.
Proof.
  apply (holds_b_spec lat increasing_b); [apply increasing_b_sorted|].
  vm_compute. reflexivity.
Qed.

Lemma lon_increasing (qs : list Q) :
  rationals lon = Some qs -> StronglySorted Qlt qs.
Proof.
  apply (holds_b_spec lon increasing_b); [apply increasing_b_sorted|].
  vm_compute. reflexivity.
Qed.

Lemma lon_inside (qs : list Q) :
  rationals lon = Some qs ->
  Forall (fun q => (0 < q)%Q /\ (q < 360 # 1)%Q) qs.
Proof.
  apply (holds_b_spec lon (forallb (inside_b 0 (360 # 1))));
    [apply forallb_inside|].
  vm_compute. reflexivity.
Qed.

Lemma lat_close_to_ideal (qs : list Q) :
  rationals lat = Some qs ->
  Forall2 (close (binade 47)) qs (ideal_samples SOUTH NORTH NLAT).
Proof.
  apply (holds_b_spec lat
           (fun l => all_close_b (binade 47) l
                                 (ideal_samples SOUTH NORTH NLAT))
           (fun l => Forall2 (close (binade 47)) l
                             (ideal_samples SOUTH NORTH NLAT)));
    [intros l; apply all_close_b_spec|].
  vm_compute. reflexivity.
Qed.

Lemma lon_close_to_ideal (qs : list Q) :
  rationals lon = Some qs ->
  Forall2 (close (binade 44)) qs (ideal_samples WEST EAST NLON).
Proof.
  apply (holds_b_spec lon
           (fun l => all_close_b (binade 44) l
                                 (ideal_samples WEST EAST NLON))
           (fun l => Forall2 (close (binade 44)) l
                             (ideal_samples WEST EAST NLON)));
    [intros l; apply all_close_b_spec|].
  vm_compute. reflexivity.
Qed.

Lemma lat_gaps (qs : list Q) :
  rationals lat = Some qs ->
  Forall (gap_ok (spacing SOUTH NORTH NLAT) (binade 47) DX) (gaps qs).
Proof.
  apply (holds_b_spec lat
           (fun l => forallb (gap_ok_b (spacing SOUTH NORTH NLAT)
                                       (binade 47) DX) (gaps l))
           (fun l => Forall (gap_ok (spacing SOUTH NORTH NLAT)
                                    (binade 47) DX) (gaps l)));
    [intros l; apply forallb_gap_ok|].
  vm_compute. reflexivity.
Qed.

Lemma lon_gaps (qs : list Q) :
  rationals lon = Some qs ->
  Forall (gap_ok (spacing WEST EAST NLON) (binade 44) DX) (gaps qs).
Proof.
  apply (holds_b_spec lon
           (fun l => forallb (gap_ok_b (spacing WEST EAST NLON)
                                       (binade 44) DX) (gaps l))
           (fun l => Forall (gap_ok (spacing WEST EAST NLON)
                                    (binade 44) DX) (gaps l)));
    [intros l; apply forallb_gap_ok|].
  vm_compute. reflexivity.
Qed.

Ltac bound_in_final := rewrite lookup_final; lazy; reflexivity.
Ltac quantity_in_final := unfold quantity; rewrite lookup_final; lazy; reflexivity.

(** *** What is known once the grid cell has run *)

Lemma grid_known (s : session) (n : nat) :
  (10 <= n)%nat ->
  let ns := user_ns (run_upto n s).2 in
  ns !! "NLAT" = Some (VInt NLAT)
  /\ ns !! "lat" = Some (VArray lat)
  /\ ns !! "NLON" = Some (VInt NLON)
  /\ ns !! "lon" = Some (VArray lon).
Proof.
  intros Hn ns. subst ns. rewrite !lookup_run_upto.
  repeat apply conj.
  - apply (binding_persists outcomes 6 n _ _ []); [reflexivity| |lia].
    cbn [drop outcomes]. repeat constructor.
  - apply (binding_persists outcomes 7 n _ _ [Alloc (shape lat)]);
      [reflexivity| |lia].
    cbn [drop outcomes]. repeat constructor.
  - apply (binding_persists outcomes 8 n _ _ []); [reflexivity| |lia].
    cbn [drop outcomes]. repeat constructor.
  - apply (binding_persists outcomes 9 n _ _ [Alloc (shape lon)]);
      [reflexivity| |lia].
    cbn [drop outcomes]. repeat constructor.
Qed.

Lemma dtmax_known (s : session) (n : nat) :
  (19 <= n)%nat ->
  user_ns (run_upto n s).2 !! "DTMAX" = Some (VInt DTMAX).
Proof.
  intros Hn. rewrite lookup_run_upto.
  apply (binding_persists outcomes 18 n _ _ []); [reflexivity| |lia].
  cbn [drop outcomes]. repeat constructor.
Qed.

Lemma container_index (x : string) (k : nat) (stack : bool) :
  In (x, k, stack) containers ->
  (10 <= k)%nat /\ (if stack then 19 <= k else True)%nat.
Proof.
  intros Hc. cbn in Hc.
  repeat (destruct Hc as [[= <- <- <-]|Hc]; [split; [lia|first [exact I|lia]]|]).
  destruct Hc.
Qed.

(** *** Ordinary sessions and the effects of a run *)

Lemma ordinary_fresh_kernel : ordinary fresh_kernel.
Proof. apply map_Forall_empty. Qed.

Lemma ordinary_unbound (s : session) (x : string) :
  ordinary s -> special_name x = true -> user_ns s !! x = None.
Proof.
  intros Hs Hx. destruct (user_ns s !! x) as [v|] eqn:E; [|done].
  specialize (Hs x v E). cbn in Hs. congruence.
Qed.


(** ** The claims *)

(** C1: the grid sizes obey the dimensional formula,
    NLON = floor((EAST-WEST)/DX) and NLAT = floor((NORTH-SOUTH)/DX); with
    the notebook's constants DX = 0.5, SOUTH = -30, NORTH = 30, WEST = 0.25,
    EAST = 359.75 this is NLON = 719 and NLAT = 120, and the result arrays
    WV and AT both have shape (NLON, NLAT). *)
Theorem C1_grid_dimensions (s0 : session) :
  let ns := user_ns (final s0) in
  quantity ns "DX" = Some DX
  /\ quantity ns "SOUTH" = Some SOUTH
  /\ quantity ns "NORTH" = Some NORTH
  /\ quantity ns "WEST" = Some WEST
  /\ quantity ns "EAST" = Some EAST
  /\ (DX == 0.5)%Q /\ (WEST == 0.25)%Q /\ (EAST == 359.75)%Q
  /\ ns !! "NLON" = Some (VInt (Qfloor ((EAST - WEST) / DX)))
  /\ ns !! "NLAT" = Some (VInt (Qfloor ((NORTH - SOUTH) / DX)))
  /\ Qfloor ((EAST - WEST) / DX) = 719
  /\ Qfloor ((NORTH - SOUTH) / DX) = 120
  /\ exists wv at_,
       ns !! "WV" = Some (VArray wv)
       /\ ns !! "AT" = Some (VArray at_)
       /\ shape wv = [Qfloor ((EAST - WEST) / DX);
                      Qfloor ((NORTH - SOUTH) / DX)]
       /\ shape at_ = shape wv.
Proof.
  intros ns. subst ns.
  do 5 (split; [quantity_in_final|]).
  do 3 (split; [reflexivity|]).
  do 2 (split; [bound_in_final|]).
  do 2 (split; [reflexivity|]).
  exists grid_zeros, grid_zeros.
  do 2 (split; [rewrite lookup_final; reflexivity|]).
  split; reflexivity.
Qed.

(** C2: nothing is computed beyond allocation.  Each of the eight
    containers (WV, AT, WV_before, WV_after, dt_before, dt_after, WV_stack,
    tobs_stack) is bound to an array that is zero in every element, and it
    is that same array at every point of the run after its allocation and
    when the notebook has finished: no statement modifies it. *)
Theorem C2_containers_stay_zero (s0 : session) (x : string) (k : nat)
        (stack : bool) :
  In (x, k, stack) containers ->
  exists a,
    all_zero a
    /\ (forall idx, Forall2 (fun d i => 0 <= i < d) (shape a) idx ->
                    Np.item a idx = Some 0%float)
    /\ user_ns (final s0) !! x = Some (VArray a)
    /\ forall n, (k < n)%nat ->
                 user_ns (run_upto n s0).2 !! x = Some (VArray a).
Proof.
  intros Hc. exists (container_value stack).
  split; [apply all_zero_container|].
  split; [destruct stack; intros idx Hidx; by apply item_full|].
  split.
  - rewrite final_run_upto. apply (container_after s0 23 x k stack Hc).
    cbn in Hc. repeat (destruct Hc as [[= <- <- <-]|Hc]; [lia|]).
    destruct Hc.
  - intros n Hn. by apply (container_after s0 n x k stack).
Qed.

Lemma C2_containers_stay_zero_witness :
  In ("WV_stack", 20%nat, true) containers
  /\ exists a,
       all_zero a
       /\ (forall idx, Forall2 (fun d i => 0 <= i < d) (shape a) idx ->
                       Np.item a idx = Some 0%float)
       /\ user_ns (final fresh_kernel) !! "WV_stack" = Some (VArray a)
       /\ forall n, (20 < n)%nat ->
                    user_ns (run_upto n fresh_kernel).2 !! "WV_stack"
                    = Some (VArray a).
Proof.
  assert (H : In ("WV_stack", 20%nat, true) containers)
    by (cbn; do 6 right; left; reflexivity).
  split; [exact H|].
  exact (C2_containers_stay_zero fresh_kernel "WV_stack" 20 true H).
Defined.

(** C3: DTMAX is the half-width of the stack.  WV_stack and tobs_stack are
    three-dimensional, their first two dimensions are those of the result
    grid (NLON, NLAT), and the time axis has exactly 2*DTMAX+1 = 13 layers:
    the layer of time offset dt sits at index DTMAX + dt, and it exists
    exactly for -DTMAX <= dt <= DTMAX, so the stack is centred on dt = 0. *)
Theorem C3_stack_layers (s0 : session) (x : string) :
  In x ["WV_stack"; "tobs_stack"] ->
  let ns := user_ns (final s0) in
  exists a wv,
    ns !! x = Some (VArray a)
    /\ ns !! "WV" = Some (VArray wv)
    /\ ns !! "DTMAX" = Some (VInt DTMAX)
    /\ DTMAX = 6
    /\ shape wv = [NLON; NLAT]
    /\ shape a = shape wv ++ [2 * DTMAX + 1]
    /\ 2 * DTMAX + 1 = 13
    /\ forall i j dt,
         0 <= i < NLON -> 0 <= j < NLAT ->
         (is_Some (Np.item a [i; j; DTMAX + dt]) <-> - DTMAX <= dt <= DTMAX).
Proof.
  intros Hx ns. subst ns. exists stack_zeros, grid_zeros.
  split.
  { cbn in Hx. destruct Hx as [<-|[<-|[]]]; rewrite lookup_final; reflexivity. }
  do 2 (split; [rewrite lookup_final; reflexivity|]).
  do 4 (split; [reflexivity|]).
  intros i j dt Hi Hj. unfold stack_zeros. rewrite item_full_is_Some.
  split.
  - intros H. inversion H as [|? ? ? ? _ H1]; subst.
    inversion H1 as [|? ? ? ? _ H2]; subst.
    inversion H2 as [|? ? ? ? H3 _]; subst. unfold DTMAX in *. lia.
  - intros Hdt. unfold NLON, NLAT, DTMAX in *.
    repeat (constructor; [lia|]). constructor.
Qed.

Lemma C3_stack_layers_witness :
  In "WV_stack" ["WV_stack"; "tobs_stack"]
  /\ exists a wv,
       user_ns (final fresh_kernel) !! "WV_stack" = Some (VArray a)
       /\ user_ns (final fresh_kernel) !! "WV" = Some (VArray wv)
       /\ user_ns (final fresh_kernel) !! "DTMAX" = Some (VInt DTMAX)
       /\ DTMAX = 6
       /\ shape wv = [NLON; NLAT]
       /\ shape a = shape wv ++ [2 * DTMAX + 1]
       /\ 2 * DTMAX + 1 = 13
       /\ forall i j dt,
            0 <= i < NLON -> 0 <= j < NLAT ->
            (is_Some (Np.item a [i; j; DTMAX + dt])
             <-> - DTMAX <= dt <= DTMAX).
Proof.
  assert (H : In "WV_stack" ["WV_stack"; "tobs_stack"])
    by (left; reflexivity).
  split; [exact H|].
  exact (C3_stack_layers fresh_kernel "WV_stack" H).
Defined.

(** C4: no statement of the notebook fails.  From any session the whole
    notebook runs to completion without raising, and so does every prefix
    of it: the constant definitions, the integer conversions, the linspace
    calls, the allocations and the three whos. *)
Theorem C4_no_exception (s0 : session) :
  (run s0).1 = Ok tt /\ forall n, (run_upto n s0).1 = Ok tt.
Proof.
  split; [by rewrite run_outcomes|].
  intros n. by rewrite run_upto_outcomes.
Qed.

(** C5 as stated fails: there are no two executions of the notebook, from
    ordinary sessions, that end with different values for a variable it
    assigns. *)
Lemma C5_no_two_runs_differ :
  ~ exists s1 s2 x,
      ordinary s1 /\ ordinary s2
      /\ In x assigned
      /\ user_ns (final s1) !! x <> user_ns (final s2) !! x.
Proof.
  intros (s1 & s2 & x & _ & _ & Hx & Hne).
  destruct (assigned_determined x Hx) as [v Hv].
  apply Hne. by rewrite !Hv.
Qed.

(** C5, amended: every variable the notebook assigns has a determined
    final value; two executions end with identical values for it, whatever
    ordinary sessions they start from (sessions that bind neither [int] nor
    [whos] nor a bookkeeping name; a fresh kernel is one). *)
Theorem C5_final_values_determined (s1 s2 : session) (x : string) :
  ordinary s1 -> ordinary s2 ->
  In x assigned ->
  is_Some (user_ns (final s1) !! x)
  /\ user_ns (final s1) !! x = user_ns (final s2) !! x.
Proof.
  intros _ _ Hx. destruct (assigned_determined x Hx) as [v Hv].
  rewrite !Hv. eauto.
Qed.

Lemma C5_final_values_determined_witness :
  ordinary fresh_kernel
  /\ ordinary (mk_session {[ "lat" := VInt 7 ]} [Alloc [3]])
  /\ In "lat" assigned
  /\ is_Some (user_ns (final fresh_kernel) !! "lat")
  /\ user_ns (final fresh_kernel) !! "lat"
     = user_ns (final (mk_session {[ "lat" := VInt 7 ]} [Alloc [3]])) !! "lat".
Proof.
  assert (H1 : ordinary fresh_kernel) by apply ordinary_fresh_kernel.
  assert (H2 : ordinary (mk_session {[ "lat" := VInt 7 ]} [Alloc [3]]))
    by (by apply map_Forall_singleton).
  assert (H : In "lat" assigned) by (cbn; do 7 right; left; reflexivity).
  split; [exact H1|]. split; [exact H2|]. split; [exact H|].
  exact (C5_final_values_determined
           fresh_kernel (mk_session {[ "lat" := VInt 7 ]} [Alloc [3]])
           "lat" H1 H2 H).
Defined.




(** C7: the coordinate vectors are not spaced by the cell size.  Adjacent
    latitudes are (NORTH-SOUTH)/(NLAT-1) = 60/119 apart and adjacent
    longitudes (EAST-WEST)/(NLON-1) = 359.5/718 apart; neither spacing is
    DX = 0.5.  In exact arithmetic the evenly spaced samples have exactly
    these gaps; the stored binary64 samples are those samples up to
    rounding (each within 2^-47, resp. 2^-44, of its exact counterpart, and
    each gap as close to the spacing), the step numpy multiplies by is
    within 2^-54 of the spacing, and no gap and neither step equals DX. *)
Theorem C7_spacing_is_not_DX (s0 : session) :
  let ns := user_ns (final s0) in
  exists qlat qlon step_lat step_lon,
    ns !! "lat" = Some (VArray lat)
    /\ ns !! "lon" = Some (VArray lon)
    /\ quantity ns "DX" = Some DX
    /\ rationals lat = Some qlat
    /\ rationals lon = Some qlon
    /\ length (gaps qlat) = 119%nat
    /\ length (gaps qlon) = 718%nat
    /\ (spacing SOUTH NORTH NLAT == 60 # 119)%Q
    /\ (spacing WEST EAST NLON == 359.5 / 718)%Q
    /\ ~ (spacing SOUTH NORTH NLAT == DX)%Q
    /\ ~ (spacing WEST EAST NLON == DX)%Q
    /\ Forall (fun d => (d == spacing SOUTH NORTH NLAT)%Q)
              (gaps (ideal_samples SOUTH NORTH NLAT))
    /\ Forall (fun d => (d == spacing WEST EAST NLON)%Q)
              (gaps (ideal_samples WEST EAST NLON))
    /\ Forall2 (close (binade 47)) qlat (ideal_samples SOUTH NORTH NLAT)
    /\ Forall2 (close (binade 44)) qlon (ideal_samples WEST EAST NLON)
    /\ Forall (gap_ok (spacing SOUTH NORTH NLAT) (binade 47) DX) (gaps qlat)
    /\ Forall (gap_ok (spacing WEST EAST NLON) (binade 44) DX) (gaps qlon)
    /\ Py.to_Q (Np.linspace_step (-30) 30 NLAT) = Some step_lat
    /\ Py.to_Q (Np.linspace_step 0.25 359.75 NLON) = Some step_lon
    /\ gap_ok (spacing SOUTH NORTH NLAT) (binade 54) DX step_lat
    /\ gap_ok (spacing WEST EAST NLON) (binade 54) DX step_lon.
Proof.
  intros ns. subst ns.
  destruct rationals_lat as [qlat Hqlat]. destruct rationals_lon as [qlon Hqlon].
  exists qlat, qlon. eexists. eexists.
  do 2 (split; [rewrite lookup_final; reflexivity|]).
  split; [quantity_in_final|].
  do 2 (split; [assumption|]).
  split.
  { rewrite length_gaps, (length_rationals lat qlat Hqlat). reflexivity. }
  split.
  { rewrite length_gaps, (length_rationals lon qlon Hqlon). reflexivity. }
  do 2 (split; [reflexivity|]).
  do 2 (split; [by vm_compute|]).
  do 2 (split; [apply gaps_ideal_samples|]).
  split; [by apply lat_close_to_ideal|].
  split; [by apply lon_close_to_ideal|].
  split; [by apply lat_gaps|].
  split; [by apply lon_gaps|].
  do 2 (split; [vm_compute; reflexivity|]).
  split; apply gap_ok_b_spec; vm_compute; reflexivity.
Qed.

(** C8: lat and lon are strictly increasing, with exact ends
    lat[0] = SOUTH = -30, lat[NLAT-1] = NORTH = 30, lon[0] = WEST = 0.25 and
    lon[NLON-1] = EAST = 359.75; every longitude lies strictly between 0 and
    360, so the longitude vector does not wrap around. *)
Theorem C8_coordinates_increase (s0 : session) :
  let ns := user_ns (final s0) in
  exists qlat qlon,
    ns !! "lat" = Some (VArray lat)
    /\ ns !! "lon" = Some (VArray lon)
    /\ rationals lat = Some qlat
    /\ rationals lon = Some qlon
    /\ StronglySorted Qlt qlat
    /\ StronglySorted Qlt qlon
    /\ data lat !! 0%nat = Some (-30)%float
    /\ data lat !! Z.to_nat (NLAT - 1) = Some 30%float
    /\ data lon !! 0%nat = Some 0.25%float
    /\ data lon !! Z.to_nat (NLON - 1) = Some 359.75%float
    /\ qlat !! 0%nat = Some SOUTH
    /\ qlat !! Z.to_nat (NLAT - 1) = Some NORTH
    /\ qlon !! 0%nat = Some WEST
    /\ qlon !! Z.to_nat (NLON - 1) = Some EAST
    /\ length qlat = Z.to_nat NLAT
    /\ length qlon = Z.to_nat NLON
    /\ Forall (fun q => (0 < q)%Q /\ (q < 360 # 1)%Q) qlon.
Proof.
  intros ns. subst ns.
  destruct rationals_lat as [qlat Hqlat]. destruct rationals_lon as [qlon Hqlon].
  exists qlat, qlon.
  do 2 (split; [rewrite lookup_final; reflexivity|]).
  do 2 (split; [assumption|]).
  split; [by apply lat_increasing|].
  split; [by apply lon_increasing|].
  do 4 (split; [vm_compute; reflexivity|]).
  split; [by rewrite <- (rationals_lookup lat qlat 0 (-30)%float Hqlat)|].
  split.
  { by rewrite <- (rationals_lookup lat qlat (Z.to_nat (NLAT - 1)) 30%float
                                    Hqlat). }
  split; [by rewrite <- (rationals_lookup lon qlon 0 0.25%float Hqlon)|].
  split.
  { by rewrite <- (rationals_lookup lon qlon (Z.to_nat (NLON - 1))
                                    359.75%float Hqlon). }
  split; [rewrite (length_rationals lat qlat Hqlat); reflexivity|].
  split; [rewrite (length_rationals lon qlon Hqlon); reflexivity|].
  by apply lon_inside.
Qed.

(** C9: all the two-dimensional containers have one shape, (NLON, NLAT) =
    (719, 120), with NLON = len(lon) and NLAT = len(lat), and the two stacks
    have shape (NLON, NLAT, 2*DTMAX+1) = (719, 120, 13); this holds at every
    point of the run after the statement that creates the array. *)
Theorem C9_shapes_agree (s0 : session) (n : nat) (x : string) (k : nat)
        (stack : bool) :
  In (x, k, stack) containers -> (k < n)%nat ->
  let ns := user_ns (run_upto n s0).2 in
  exists a la lo,
    ns !! x = Some (VArray a)
    /\ shape a = (if stack then [NLON; NLAT; 2 * DTMAX + 1]
                  else [NLON; NLAT])
    /\ ns !! "NLON" = Some (VInt NLON)
    /\ ns !! "NLAT" = Some (VInt NLAT)
    /\ ns !! "lon" = Some (VArray lo)
    /\ ns !! "lat" = Some (VArray la)
    /\ Z.of_nat (length (data lo)) = NLON
    /\ Z.of_nat (length (data la)) = NLAT
    /\ (if stack then ns !! "DTMAX" = Some (VInt DTMAX) else True)
    /\ [NLON; NLAT] = [719; 120]
    /\ [NLON; NLAT; 2 * DTMAX + 1] = [719; 120; 13].
Proof.
  intros Hc Hn ns. subst ns.
  destruct (container_index x k stack Hc) as [Hk Hstack].
  destruct (grid_known s0 n ltac:(lia)) as (HNLAT & Hlat & HNLON & Hlon).
  exists (container_value stack), lat, lon.
  split; [by apply (container_after s0 n x k stack)|].
  split; [by destruct stack|].
  do 4 (split; [assumption|]).
  do 2 (split; [vm_compute; reflexivity|]).
  split; [|split; reflexivity].
  destruct stack; [|exact I]. apply dtmax_known. lia.
Qed.

Lemma C9_shapes_agree_witness :
  In ("tobs_stack", 21%nat, true) containers /\ (21 < 22)%nat
  /\ exists a la lo,
       user_ns (run_upto 22 fresh_kernel).2 !! "tobs_stack" = Some (VArray a)
       /\ shape a = [NLON; NLAT; 2 * DTMAX + 1]
       /\ user_ns (run_upto 22 fresh_kernel).2 !! "NLON" = Some (VInt NLON)
       /\ user_ns (run_upto 22 fresh_kernel).2 !! "NLAT" = Some (VInt NLAT)
       /\ user_ns (run_upto 22 fresh_kernel).2 !! "lon" = Some (VArray lo)
       /\ user_ns (run_upto 22 fresh_kernel).2 !! "lat" = Some (VArray la)
       /\ Z.of_nat (length (data lo)) = NLON
       /\ Z.of_nat (length (data la)) = NLAT
       /\ user_ns (run_upto 22 fresh_kernel).2 !! "DTMAX"
          = Some (VInt DTMAX)
       /\ [NLON; NLAT] = [719; 120]
       /\ [NLON; NLAT; 2 * DTMAX + 1] = [719; 120; 13].
Proof.
  assert (H : In ("tobs_stack", 21%nat, true) containers)
    by (cbn; do 7 right; left; reflexivity).
  assert (Hn : (21 < 22)%nat) by lia.
  split; [exact H|]. split; [exact Hn|].
  exact (C9_shapes_agree fresh_kernel 22 "tobs_stack" 21 true H Hn).
Defined.

(** ** Further properties of the code *)

(** The cells are made of the statement forms above. *)
Lemma cells_by_form :
  cell_grid !! 5%nat = Some (size_statement "NLAT" "NORTH" "SOUTH")
  /\ cell_grid !! 6%nat = Some (linspace_statement "lat" "SOUTH" "NORTH" "NLAT")
  /\ cell_grid !! 7%nat = Some (size_statement "NLON" "EAST" "WEST")
  /\ cell_grid !! 8%nat = Some (linspace_statement "lon" "WEST" "EAST" "NLON")
  /\ drop 9 cell_grid = map grid_statement ["WV"; "AT"]
  /\ cell_before_after = map grid_statement before_after
  /\ drop 2 cell_stack = map stack_statement ["WV_stack"; "tobs_stack"].
Proof. repeat split. Qed.

(** *** [int] on a float *)

Lemma Qle_bool_Qred (q : Q) : Qle_bool 0 (Qred q) = Qle_bool 0 q.
Proof.
  apply eq_true_iff_eq. rewrite !Qle_bool_iff. by rewrite Qred_correct.
Qed.

Lemma truncate_Qred (q : Q) : truncate (Qred q) = truncate q.
Proof.
  unfold truncate, Qceiling. rewrite Qle_bool_Qred.
  rewrite (Qfloor_comp _ _ (Qred_correct q)).
  assert (H : (- Qred q == - q)%Q) by (by rewrite Qred_correct).
  by rewrite (Qfloor_comp _ _ H).
Qed.

Lemma truncate_pos (n : Z) (d : positive) :
  0 <= n -> truncate (n # d) = n / Z.pos d.
Proof.
  intros Hn. unfold truncate.
  assert (H : Qle_bool 0 (n # d) = true).
  { apply Qle_bool_iff. unfold Qle. cbn. lia. }
  by rewrite H.
Qed.

Lemma truncate_neg (n : Z) (d : positive) :
  0 < n -> truncate (- (n # d)) = - (n / Z.pos d).
Proof.
  intros Hn. unfold truncate.
  assert (H : Qle_bool 0 (- (n # d)) = false).
  { apply not_true_iff_false. rewrite Qle_bool_iff. unfold Qle. cbn. lia. }
  rewrite H. unfold Qceiling. by rewrite Qopp_involutive.
Qed.

Lemma int_of_float_cases (f : float) :
  match Py.to_Q f with
  | Some q => Py.int_of_float f = Ok (truncate q)
  | None => Py.int_of_float f = Raise OverflowError
            \/ Py.int_of_float f = Raise ValueError
  end.
Proof.
  unfold Py.to_Q, Py.int_of_float.
  destruct (Prim2SF f) as [s|s| |s m e]; [reflexivity|by left|by right|].
  rewrite truncate_Qred. f_equal.
  destruct (Z.leb_spec 0 e) as [He|He].
  - assert (Hp : 0 < 2 ^ e) by (apply Z.pow_pos_nonneg; lia).
    destruct s.
    + change (- inject_Z (Z.pos m * 2 ^ e))%Q
        with (- ((Z.pos m * 2 ^ e) # 1))%Q.
      rewrite truncate_neg by lia. by rewrite Z.div_1_r.
    + unfold inject_Z. rewrite truncate_pos by lia. by rewrite Z.div_1_r.
  - assert (Hp : 0 < 2 ^ (- e)) by (apply Z.pow_pos_nonneg; lia).
    destruct s.
    + rewrite truncate_neg by lia. by rewrite Z2Pos.id.
    + rewrite truncate_pos by lia. by rewrite Z2Pos.id.
Qed.

(** X1: [int] truncates towards zero.  On a finite float it returns the
    integer part of the exact value, the floor when the value is not
    negative and the ceiling when it is; on an infinity or a NaN it
    raises. *)
Theorem int_truncates_towards_zero (f : float) :
  match Py.to_Q f with
  | Some q =>
      Py.int (VFloat f) = Ok (VInt (truncate q))
      /\ ((0 <= q)%Q -> truncate q = Qfloor q)
      /\ (~ (0 <= q)%Q -> truncate q = Qceiling q)
  | None => Py.int (VFloat f) = Raise OverflowError
            \/ Py.int (VFloat f) = Raise ValueError
  end.
Proof.
  pose proof (int_of_float_cases f) as H. cbn [Py.int].
  destruct (Py.to_Q f) as [q|].
  - rewrite H. split; [reflexivity|]. unfold truncate.
    split; intros Hq.
    + apply Qle_bool_iff in Hq. by rewrite Hq.
    + destruct (Qle_bool 0 q) eqn:E; [|done].
      apply Qle_bool_iff in E. contradiction.
  - destruct H as [-> | ->]; [by left|by right].
Qed.

(** *** The grid-size statements *)

Section SizeStatement.
Variable s : session.
Variables x hi lo : string.
Variables vh vl : value.
Variables d f : float.
Hypothesis Hhi : user_ns s !! hi = Some vh.
Hypothesis Hlo : user_ns s !! lo = Some vl.
Hypothesis HDX : user_ns s !! "DX" = Some (VFloat d).
Hypothesis Hf : float_difference vh vl = Ok f.

Lemma size_statement_quotient :
  size_statement x hi lo s
  = (if (d =? 0)%float then (Raise ZeroDivisionError, s)
     else match Py.int_of_float (f / d) with
          | Ok z => (Ok tt, apply_outcome s (Binds x (VInt z) []))
          | Raise e => (Raise e, s)
          end).
Proof.
  unfold size_statement, assign, int_, binop, bind, var, lift.
  rewrite Hhi, Hlo. cbv beta iota. rewrite HDX. cbv beta iota.
  unfold float_difference in Hf.
  destruct (Py.sub vh vl) as [diff|e]; [|discriminate Hf]. cbn [rbind] in Hf.
  assert (Hdiv : Py.truediv diff (VFloat d)
                 = if (d =? 0)%float then Raise ZeroDivisionError
                   else Ok (VFloat (f / d))).
  { unfold Py.truediv.
    destruct diff as [z|g| | |]; try discriminate Hf; cbn [Py.coerce rbind].
    - by rewrite Hf.
    - by injection Hf as ->. }
  rewrite Hdiv. destruct (d =? 0)%float; [reflexivity|].
  cbn [Py.int rbind]. destruct (Py.int_of_float (f / d)) as [z|e]; cbn [rbind].
  - cbn [apply_outcome]. by rewrite app_nil_r.
  - reflexivity.
Qed.

End SizeStatement.

Lemma ordinary_three (k1 k2 k3 : string) (v1 v2 v3 : value)
      (evs : list effect) :
  special_name k1 = false -> special_name k2 = false ->
  special_name k3 = false ->
  ordinary (mk_session (<[k1 := v1]> (<[k2 := v2]> {[ k3 := v3 ]})) evs).
Proof.
  intros H1 H2 H3. unfold ordinary. cbn [user_ns].
  intros k v. rewrite !lookup_insert, lookup_singleton.
  repeat case_decide; subst; intros [= <-]; done.
Qed.

(** X2: a grid-size statement [x = int( (hi-lo)/DX )] in an ordinary
    session.  When [hi] and [lo] are numbers whose difference converts to a
    float [f], [DX] is a float [d] that is not zero, and the binary64
    quotient [f/d] is finite, the statement binds [x] to the integer part of
    that quotient, rounded towards zero, and changes nothing else. *)
Theorem size_statement_truncates (s : session) (x hi lo : string)
        (vh vl : value) (d f : float) (q : Q) :
  ordinary s ->
  user_ns s !! hi = Some vh ->
  user_ns s !! lo = Some vl ->
  user_ns s !! "DX" = Some (VFloat d) ->
  float_difference vh vl = Ok f ->
  (d =? 0)%float = false ->
  Py.to_Q (f / d) = Some q ->
  size_statement x hi lo s
  = (Ok tt, mk_session (<[x := VInt (truncate q)]> (user_ns s)) (effects s)).
Proof.
  intros _ Hhi Hlo HDX Hf Hd Hq.
  rewrite (size_statement_quotient s x hi lo vh vl d f Hhi Hlo HDX Hf), Hd.
  pose proof (int_of_float_cases (f / d)) as H. rewrite Hq in H. rewrite H.
  cbn [apply_outcome]. by rewrite app_nil_r.
Qed.

Lemma size_statement_truncates_witness :
  let s := mk_session (<["EAST" := VFloat 0.25]>
                         (<["WEST" := VInt 3]> {[ "DX" := VFloat 1 ]})) [] in
  ordinary s
  /\ size_statement "NLON" "EAST" "WEST" s
     = (Ok tt, mk_session (<["NLON" := VInt (truncate (-11 # 4))]> (user_ns s))
                          (effects s))
  /\ truncate (-11 # 4) = -2.
Proof.
  intros s.
  assert (H : ordinary s) by (by apply ordinary_three).
  split; [exact H|]. split; [|reflexivity].
  apply (size_statement_truncates s "NLON" "EAST" "WEST"
                                  (VFloat 0.25) (VInt 3) 1 (-2.75) (-11 # 4) H);
    vm_compute; reflexivity.
Defined.

(** X3: a zero cell size.  In an ordinary session where [hi] and [lo] are
    numbers whose difference converts to a float and [DX] is the float 0.0
    or -0.0, the grid-size statement raises [ZeroDivisionError] and leaves
    the session as it was. *)
Theorem size_statement_zero_DX (s : session) (x hi lo : string)
        (vh vl : value) (d f : float) :
  ordinary s ->
  user_ns s !! hi = Some vh ->
  user_ns s !! lo = Some vl ->
  user_ns s !! "DX" = Some (VFloat d) ->
  float_difference vh vl = Ok f ->
  (d =? 0)%float = true ->
  size_statement x hi lo s = (Raise ZeroDivisionError, s).
Proof.
  intros _ Hhi Hlo HDX Hf Hd.
  by rewrite (size_statement_quotient s x hi lo vh vl d f Hhi Hlo HDX Hf), Hd.
Qed.

Lemma size_statement_zero_DX_witness :
  let s := mk_session (<["EAST" := VFloat 359.75]>
                         (<["WEST" := VFloat 0.25]> {[ "DX" := VFloat (-0) ]}))
                      [] in
  ordinary s
  /\ size_statement "NLON" "EAST" "WEST" s = (Raise ZeroDivisionError, s).
Proof.
  intros s.
  assert (H : ordinary s) by (by apply ordinary_three).
  split; [exact H|].
  apply (size_statement_zero_DX s "NLON" "EAST" "WEST"
                                (VFloat 359.75) (VFloat 0.25) (-0) 359.5 H);
    vm_compute; reflexivity.
Defined.

(** *** The allocation statements in an arbitrary session *)

Lemma zeros_dims (dims : list Z) :
  Np.zeros (VTuple (map VInt dims))
  = if Np.admissible dims then Ok (Np.full dims 0) else Raise ValueError.
Proof.
  unfold Np.zeros. cbn [Np.dims_of].
  assert (H : Np.dims_of_items (map VInt dims) = Ok dims).
  { induction dims as [|n dims IH]; [reflexivity|].
    cbn [map Np.dims_of_items Np.dim_of rbind]. by rewrite IH. }
  by rewrite H.
Qed.

Lemma max_intp_value : Np.max_intp = 9223372036854775807.
Proof. reflexivity. Qed.

Lemma admissible_negative (dims : list Z) :
  Exists (fun n => n < 0) dims -> Np.admissible dims = false.
Proof.
  intros H. unfold Np.admissible.
  assert (Hf : forallb (fun n => (0 <=? n) && (n <=? Np.max_intp)) dims
               = false).
  { induction H as [n dims Hn|n dims _ IH]; cbn [forallb].
    - destruct (Z.leb_spec 0 n); [lia|reflexivity].
    - rewrite IH. apply andb_false_r. }
  rewrite Hf. by rewrite andb_false_r.
Qed.

Lemma admissible_grid (a b : Z) :
  1 <= a -> 1 <= b -> 8 * (a * b) <= largest_recorded_bytes ->
  Np.admissible [a; b] = true.
Proof.
  unfold largest_recorded_bytes. intros Ha Hb Hsize.
  unfold Np.admissible. cbn [length forallb Np.nbytes].
  rewrite max_intp_value.
  destruct (Z.eqb_spec a 0); [lia|]. destruct (Z.eqb_spec b 0); [lia|].
  destruct (Z.leb_spec (8 * a) 9223372036854775807); [|nia].
  destruct (Z.leb_spec (8 * a * b) 9223372036854775807); [|nia].
  destruct (Z.leb_spec 0 a); [|lia]. destruct (Z.leb_spec 0 b); [|lia].
  destruct (Z.leb_spec a 9223372036854775807); [|nia].
  destruct (Z.leb_spec b 9223372036854775807); [|nia].
  reflexivity.
Qed.

Lemma admissible_stack (a b c : Z) :
  1 <= a -> 1 <= b -> 1 <= c ->
  8 * (a * b * c) <= largest_recorded_bytes ->
  Np.admissible [a; b; c] = true.
Proof.
  unfold largest_recorded_bytes. intros Ha Hb Hc Hsize.
  assert (Hab : 8 * (a * b) <= 8973120) by nia.
  unfold Np.admissible. cbn [length forallb Np.nbytes].
  rewrite max_intp_value.
  destruct (Z.eqb_spec a 0); [lia|]. destruct (Z.eqb_spec b 0); [lia|].
  destruct (Z.eqb_spec c 0); [lia|].
  destruct (Z.leb_spec (8 * a) 9223372036854775807); [|nia].
  destruct (Z.leb_spec (8 * a * b) 9223372036854775807); [|nia].
  destruct (Z.leb_spec (8 * a * b * c) 9223372036854775807); [|nia].
  destruct (Z.leb_spec 0 a); [|lia]. destruct (Z.leb_spec 0 b); [|lia].
  destruct (Z.leb_spec 0 c); [|lia].
  destruct (Z.leb_spec a 9223372036854775807); [|nia].
  destruct (Z.leb_spec b 9223372036854775807); [|nia].
  destruct (Z.leb_spec c 9223372036854775807); [|nia].
  reflexivity.
Qed.

Lemma zeros_raises (s : session) (es : list (M value)) (vs : list value)
      (x : string) (e : exn) :
  user_ns s !! "np" = Some (VModule "numpy") ->
  eval_items es s = (Ok vs, s) ->
  Np.zeros (VTuple vs) = Raise e ->
  (x ::= np_call "zeros" [tuple es]) s = (Raise e, s).
Proof.
  intros Hnp Hes Harr.
  unfold assign, np_call, bind, var, fresh, lift, emit, ret.
  rewrite Hnp. cbn [String.eqb Ascii.eqb Bool.eqb eval_items].
  unfold tuple, bind, ret. by rewrite Hes, Harr.
Qed.

Section Allocation.
Variable s : session.
Variables a b : Z.
Hypothesis Hnp : user_ns s !! "np" = Some (VModule "numpy").
Hypothesis HNLON : user_ns s !! "NLON" = Some (VInt a).
Hypothesis HNLAT : user_ns s !! "NLAT" = Some (VInt b).

Lemma grid_items :
  eval_items [var "NLON"; var "NLAT"] s = (Ok [VInt a; VInt b], s).
Proof. unfold eval_items, bind, var, ret. by rewrite HNLON, HNLAT. Qed.

Lemma grid_statement_cases (x : string) :
  grid_statement x s
  = if Np.admissible [a; b]
    then (Ok tt, apply_outcome s (allocates x (Np.full [a; b] 0)))
    else (Raise ValueError, s).
Proof.
  pose proof (zeros_dims [a; b]) as Hz. cbn [map] in Hz.
  destruct (Np.admissible [a; b]).
  - by apply (zeros_outcome s Hnp _ _ x _ grid_items).
  - by apply (zeros_raises s _ _ x _ Hnp grid_items).
Qed.

Lemma stack_items (d : Z) :
  user_ns s !! "DTMAX" = Some (VInt d) ->
  eval_items [var "NLON"; var "NLAT"; lit_int 2 .* var "DTMAX" .+ lit_int 1] s
  = (Ok [VInt a; VInt b; VInt (2 * d + 1)], s).
Proof.
  intros Hd. unfold eval_items, binop, lit_int, bind, var, ret, lift.
  rewrite HNLON, HNLAT. cbv beta iota. by rewrite Hd.
Qed.

Lemma stack_statement_cases (x : string) (d : Z) :
  user_ns s !! "DTMAX" = Some (VInt d) ->
  stack_statement x s
  = if Np.admissible [a; b; 2 * d + 1]
    then (Ok tt, apply_outcome s (allocates x (Np.full [a; b; 2 * d + 1] 0)))
    else (Raise ValueError, s).
Proof.
  intros Hd.
  pose proof (zeros_dims [a; b; 2 * d + 1]) as Hz. cbn [map] in Hz.
  destruct (Np.admissible [a; b; 2 * d + 1]).
  - by apply (zeros_outcome s Hnp _ _ x _ (stack_items d Hd)).
  - by apply (zeros_raises s _ _ x _ Hnp (stack_items d Hd)).
Qed.

End Allocation.

Lemma exec_cons_outcome (c : M unit) (p : list (M unit)) (s : session)
      (o : outcome) :
  c s = (Ok tt, apply_outcome s o) ->
  exec (c :: p) s = exec p (apply_outcome s o).
Proof. intros H. cbn [exec]. unfold bind. by rewrite H. Qed.

Lemma exec_cons_raise (c : M unit) (p : list (M unit)) (s s' : session)
      (e : exn) :
  c s = (Raise e, s') -> exec (c :: p) s = (Raise e, s').
Proof. intros H. cbn [exec]. unfold bind. by rewrite H. Qed.

Lemma lookup_allocates (s : session) (x y : string) (arr : ndarray) :
  x <> y ->
  user_ns (apply_outcome s (allocates x arr)) !! y = user_ns s !! y.
Proof. intros H. cbn. by rewrite lookup_insert_ne. Qed.

(** A run of grid allocations, for any list of fresh names. *)
(** A run of grid allocations, for any list of fresh names. *)
Lemma exec_grid_statements (xs : list string) (a b : Z) :
  Np.admissible [a; b] = true -> Forall reserved xs ->
  forall s,
    user_ns s !! "np" = Some (VModule "numpy") ->
    user_ns s !! "NLON" = Some (VInt a) ->
    user_ns s !! "NLAT" = Some (VInt b) ->
    exec (map grid_statement xs) s
    = (Ok tt, foldl apply_outcome s
                    (map (fun x => allocates x (Np.full [a; b] 0)) xs)).
Proof.
  intros Hab Hxs. induction Hxs as [|x xs (H1 & H2 & H3 & _) _ IH];
    intros s Hnp HNLON HNLAT; [reflexivity|].
  cbn [map foldl].
  rewrite (exec_cons_outcome _ _ s (allocates x (Np.full [a; b] 0))).
  - apply IH; by rewrite lookup_allocates.
  - by rewrite (grid_statement_cases s a b Hnp HNLON HNLAT x), Hab.
Qed.

Lemma names_allocates (xs : list string) (arr : ndarray) :
  names (map (fun x => allocates x arr) xs) = xs.
Proof.
  induction xs as [|x xs IH]; [reflexivity|].
  change (x :: names (map (fun x => allocates x arr) xs) = x :: xs).
  by rewrite IH.
Qed.

Lemma lookup_foldl_allocates (xs : list string) (arr : ndarray)
      (s : session) (x : string) :
  user_ns (foldl apply_outcome s (map (fun x => allocates x arr) xs)) !! x
  = if decide (x ∈ xs) then Some (VArray arr) else user_ns s !! x.
Proof.
  rewrite lookup_foldl_outcomes. generalize (user_ns s !! x) as d.
  induction xs as [|y xs IH]; intros d; [reflexivity|].
  cbn [map foldl]. rewrite IH. cbn [rebind allocates].
  destruct (decide (x ∈ xs)) as [Hin|Hnin].
  - rewrite decide_True by (by right). reflexivity.
  - destruct (decide (y = x)) as [->|Hne].
    + rewrite decide_True by (by left). reflexivity.
    + rewrite decide_False by (intros [?|?]%elem_of_cons; done). reflexivity.
Qed.

Lemma effects_foldl_allocates (xs : list string) (arr : ndarray)
      (s : session) :
  effects (foldl apply_outcome s (map (fun x => allocates x arr) xs))
  = effects s ++ replicate (length xs) (Alloc (shape arr)).
Proof.
  revert s. induction xs as [|y xs IH]; intros s.
  - cbn. by rewrite app_nil_r.
  - cbn [map foldl length replicate]. rewrite IH.
    cbn [apply_outcome allocates effects]. by rewrite <- app_assoc.
Qed.

(** X4: the before/after cell follows the grid sizes of the session.  In
    an ordinary session with numpy imported and NLON, NLAT bound to positive
    ints [a] and [b] whose array is no larger than the largest one the
    notebook itself allocates, the cell binds its four names to zero arrays
    of shape (a, b), allocates exactly those four arrays, and leaves every
    other name as it was. *)
Theorem before_after_follow_grid (s : session) (a b : Z) :
  ordinary s ->
  user_ns s !! "np" = Some (VModule "numpy") ->
  user_ns s !! "NLON" = Some (VInt a) ->
  user_ns s !! "NLAT" = Some (VInt b) ->
  1 <= a -> 1 <= b -> 8 * (a * b) <= largest_recorded_bytes ->
  exists s',
    exec cell_before_after s = (Ok tt, s')
    /\ (forall x, user_ns s' !! x
                  = if decide (x ∈ before_after)
                    then Some (VArray (Np.full [a; b] 0))
                    else user_ns s !! x)
    /\ effects s' = effects s ++ replicate 4 (Alloc [a; b])
    /\ shape (Np.full [a; b] 0) = [a; b]
    /\ all_zero (Np.full [a; b] 0).
Proof.
  intros _ Hnp HNLON HNLAT Ha Hb Hsize. eexists. split.
  - change cell_before_after with (map grid_statement before_after).
    apply (exec_grid_statements before_after a b); [|..|done|done|done].
    + by apply admissible_grid.
    + unfold before_after, reserved. repeat constructor; discriminate.
  - split; [intros x; apply lookup_foldl_allocates|].
    split; [apply effects_foldl_allocates|].
    split; [reflexivity|apply all_zero_full].
Qed.

Lemma before_after_follow_grid_witness :
  let s := mk_session (<["np" := VModule "numpy"]>
                         (<["NLON" := VInt 3]> {[ "NLAT" := VInt 2 ]})) [] in
  ordinary s
  /\ exists s',
       exec cell_before_after s = (Ok tt, s')
       /\ (forall x, user_ns s' !! x
                     = if decide (x ∈ before_after)
                       then Some (VArray (Np.full [3; 2] 0))
                       else user_ns s !! x)
       /\ effects s' = effects s ++ replicate 4 (Alloc [3; 2])
       /\ shape (Np.full [3; 2] 0) = [3; 2]
       /\ all_zero (Np.full [3; 2] 0).
Proof.
  intros s.
  assert (H : ordinary s) by (by apply ordinary_three).
  split; [exact H|].
  apply (before_after_follow_grid s 3 2 H); try reflexivity;
    unfold largest_recorded_bytes; lia.
Defined.

(** X5: a negative grid size is rejected.  If NLON or NLAT is a negative
    int, the first allocation of the before/after cell raises [ValueError]
    and the session is left exactly as it was. *)
Theorem before_after_reject_negative (s : session) (a b : Z) :
  user_ns s !! "np" = Some (VModule "numpy") ->
  user_ns s !! "NLON" = Some (VInt a) ->
  user_ns s !! "NLAT" = Some (VInt b) ->
  a < 0 \/ b < 0 ->
  exec cell_before_after s = (Raise ValueError, s).
Proof.
  intros Hnp HNLON HNLAT Hneg.
  change cell_before_after with (map grid_statement before_after).
  cbn [map before_after]. apply exec_cons_raise.
  rewrite (grid_statement_cases s a b Hnp HNLON HNLAT).
  rewrite admissible_negative; [reflexivity|].
  destruct Hneg; [by left|by right; left].
Qed.

Lemma before_after_reject_negative_witness :
  let s := mk_session {[ "np" := VModule "numpy"; "NLON" := VInt 719;
                         "NLAT" := VInt (-120) ]} [] in
  exec cell_before_after s = (Raise ValueError, s).
Proof.
  intros s. apply (before_after_reject_negative s 719 (-120));
    try reflexivity. right. lia.
Defined.

Lemma np_call_unbound (s : session) (x attr : string)
      (args : list (M value)) :
  user_ns s !! "np" = None ->
  (x ::= np_call attr args) s = (Raise (NameError "np"), s).
Proof.
  intros Hnp. unfold assign, np_call, bind, var. by rewrite Hnp.
Qed.

(** X6: every allocation needs the import.  In a session where [np] is
    unbound the before/after cell raises [NameError] at once; the stack
    cell and the grid cell raise it at their first numpy call, after the
    plain assignments before that call have taken effect, and nothing is
    allocated. *)
Theorem cells_need_import (s : session) :
  user_ns s !! "np" = None ->
  exec cell_before_after s = (Raise (NameError "np"), s)
  /\ exec cell_stack s
     = (Raise (NameError "np"),
        mk_session (<["DTstack" := VInt 1]> (<["DTMAX" := VInt 6]> (user_ns s)))
                   (effects s))
  /\ exists s',
       exec cell_grid s = (Raise (NameError "np"), s')
       /\ user_ns s' !! "NLAT" = Some (VInt 120)
       /\ user_ns s' !! "lat" = user_ns s !! "lat"
       /\ user_ns s' !! "NLON" = user_ns s !! "NLON"
       /\ effects s' = effects s.
Proof.
  intros Hnp. split; [by apply exec_cons_raise, np_call_unbound|]. split.
  - unfold cell_stack.
    rewrite (exec_cons_outcome _ _ _ _ (literal_outcome s "DTMAX" (VInt 6))).
    rewrite (exec_cons_outcome _ _ _ _
               (literal_outcome _ "DTstack" (VInt 1))).
    etransitivity.
    { apply exec_cons_raise, np_call_unbound.
      cbn. by rewrite !lookup_insert_ne by done. }
    cbn [apply_outcome user_ns effects]. by rewrite !app_nil_r.
  - unfold cell_grid.
    rewrite (exec_cons_outcome _ _ _ _ (literal_outcome s "DX" (VFloat 0.5))).
    rewrite (exec_cons_outcome _ _ _ _ (literal_outcome _ "SOUTH" (VInt (-30)))).
    rewrite (exec_cons_outcome _ _ _ _ (literal_outcome _ "NORTH" (VInt 30))).
    rewrite (exec_cons_outcome _ _ _ _ (literal_outcome _ "WEST" (VFloat 0.25))).
    rewrite (exec_cons_outcome _ _ _ _ (literal_outcome _ "EAST" (VFloat 359.75))).
    rewrite (exec_cons_outcome _ _ _ (Binds "NLAT" (VInt 120) []));
      [|etransitivity;
          [apply (size_statement_quotient _ "NLAT" "NORTH" "SOUTH"
                                          (VInt 30) (VInt (-30)) 0.5 60);
           [cbn; rewrite ?lookup_insert_ne by done;
            by rewrite lookup_insert_eq..
           |reflexivity]
          |reflexivity]].
    eexists. split.
    { apply exec_cons_raise, np_call_unbound.
      cbn. by rewrite !lookup_insert_ne by done. }
    cbn [apply_outcome user_ns effects].
    split; [by rewrite lookup_insert_eq|].
    split; [by rewrite !lookup_insert_ne by done|].
    split; [by rewrite !lookup_insert_ne by done|].
    by rewrite !app_nil_r.
Qed.

Lemma cells_need_import_witness :
  exec cell_before_after fresh_kernel = (Raise (NameError "np"), fresh_kernel)
  /\ exec cell_stack fresh_kernel
     = (Raise (NameError "np"),
        mk_session (<["DTstack" := VInt 1]>
                      (<["DTMAX" := VInt 6]> (user_ns fresh_kernel)))
                   (effects fresh_kernel))
  /\ exists s',
       exec cell_grid fresh_kernel = (Raise (NameError "np"), s')
       /\ user_ns s' !! "NLAT" = Some (VInt 120)
       /\ user_ns s' !! "lat" = user_ns fresh_kernel !! "lat"
       /\ user_ns s' !! "NLON" = user_ns fresh_kernel !! "NLON"
       /\ effects s' = effects fresh_kernel.
Proof. apply (cells_need_import fresh_kernel). reflexivity. Defined.

(** X7: the time axis follows DTMAX.  In an ordinary session with numpy
    imported, NLON, NLAT bound to positive ints and DTMAX to an int
    [d >= 0], and an array no larger than the largest one the notebook
    itself allocates, a stack allocation binds a zero array of shape
    (NLON, NLAT, 2*d+1): an odd number of layers, which are the ones at the
    non-negative indices 0 .. 2*d, so that the layer at index [d] has [d]
    layers on either side. *)
Theorem stack_statement_layers (s : session) (x : string) (a b d : Z) :
  ordinary s ->
  user_ns s !! "np" = Some (VModule "numpy") ->
  user_ns s !! "NLON" = Some (VInt a) ->
  user_ns s !! "NLAT" = Some (VInt b) ->
  user_ns s !! "DTMAX" = Some (VInt d) ->
  1 <= a -> 1 <= b -> 0 <= d ->
  8 * (a * b * (2 * d + 1)) <= largest_recorded_bytes ->
  stack_statement x s
  = (Ok tt,
     mk_session (<[x := VArray (Np.full [a; b; 2 * d + 1] 0)]> (user_ns s))
                (effects s ++ [Alloc [a; b; 2 * d + 1]]))
  /\ forall i j k,
       0 <= i < a -> 0 <= j < b -> 0 <= k ->
       (Np.item (Np.full [a; b; 2 * d + 1] 0) [i; j; k] = Some 0%float
        <-> k <= 2 * d).
Proof.
  intros _ Hnp HNLON HNLAT Hd Ha Hb Hd0 Hsize. split.
  - rewrite (stack_statement_cases s a b Hnp HNLON HNLAT x d Hd).
    rewrite admissible_stack by (done || lia). reflexivity.
  - intros i j k Hi Hj Hk. split.
    + intros H. assert (Hs : is_Some (Np.item (Np.full [a; b; 2 * d + 1] 0)
                                              [i; j; k])) by eauto.
      apply item_full_is_Some in Hs.
      inversion Hs as [|? ? ? ? _ H1]; subst.
      inversion H1 as [|? ? ? ? _ H2]; subst.
      inversion H2 as [|? ? ? ? H3 _]; subst. lia.
    + intros Hdt. apply item_full.
      repeat (constructor; [lia|]). constructor.
Qed.

Lemma stack_statement_layers_witness :
  let s := mk_session (<["np" := VModule "numpy"]>
                         (<["NLON" := VInt 2]>
                            (<["NLAT" := VInt 3]> {[ "DTMAX" := VInt 2 ]}))) []
  in
  ordinary s
  /\ stack_statement "WV_stack" s
     = (Ok tt,
        mk_session (<["WV_stack" := VArray (Np.full [2; 3; 2 * 2 + 1] 0)]>
                      (user_ns s))
                   (effects s ++ [Alloc [2; 3; 2 * 2 + 1]]))
  /\ forall i j k,
       0 <= i < 2 -> 0 <= j < 3 -> 0 <= k ->
       (Np.item (Np.full [2; 3; 2 * 2 + 1] 0) [i; j; k] = Some 0%float
        <-> k <= 2 * 2).
Proof.
  intros s.
  assert (H : ordinary s).
  { unfold ordinary. cbn [user_ns s]. intros k v.
    rewrite !lookup_insert, lookup_singleton.
    repeat case_decide; subst; intros [= <-]; done. }
  split; [exact H|].
  apply (stack_statement_layers s "WV_stack" 2 3 2 H); try reflexivity;
    unfold largest_recorded_bytes; lia.
Defined.

(** X8: a negative DTMAX is rejected: the stack allocation raises
    [ValueError] and leaves the session as it was. *)
Theorem stack_statement_negative_DTMAX (s : session) (x : string)
        (a b d : Z) :
  user_ns s !! "np" = Some (VModule "numpy") ->
  user_ns s !! "NLON" = Some (VInt a) ->
  user_ns s !! "NLAT" = Some (VInt b) ->
  user_ns s !! "DTMAX" = Some (VInt d) ->
  d < 0 ->
  stack_statement x s = (Raise ValueError, s).
Proof.
  intros Hnp HNLON HNLAT Hd Hneg.
  rewrite (stack_statement_cases s a b Hnp HNLON HNLAT x d Hd).
  rewrite admissible_negative; [reflexivity|].
  right; right; left. lia.
Qed.

Lemma stack_statement_negative_DTMAX_witness :
  let s := mk_session {[ "np" := VModule "numpy"; "NLON" := VInt 719;
                         "NLAT" := VInt 120; "DTMAX" := VInt (-1) ]} [] in
  stack_statement "tobs_stack" s = (Raise ValueError, s).
Proof.
  intros s.
  apply (stack_statement_negative_DTMAX s "tobs_stack" 719 120 (-1));
    reflexivity.
Defined.

(** *** [whos] in an arbitrary session *)

#[local] Instance name_le_total : Total name_le.
Proof. intros p q. unfold name_le. apply (total String.le). Qed.

Lemma Sorted_names (l : list (string * value)) :
  Sorted name_le l -> Sorted String.le (map fst l).
Proof.
  induction 1 as [|p l _ IH Hhd]; cbn [map]; constructor; [exact IH|].
  destruct Hhd as [|q l Hpq]; cbn [map]; by constructor.
Qed.

Lemma whos_table_names (ns : gmap string value) :
  map row_variable (whos_table ns)
  = map fst (merge_sort name_le (filter listed (map_to_list ns))).
Proof. unfold whos_table. rewrite map_map. reflexivity. Qed.

(** X9: what [whos] lists.  In a session that does not bind the name
    [whos], the magic never fails and binds nothing; the table it prints
    has exactly one row for each variable whose name does not start with an
    underscore and no other row, each row describing the value the name is
    bound to, and the rows come in the order of the names. *)
Theorem whos_lists_the_namespace (s : session) :
  user_ns s !! "whos" = None ->
  exists t,
    whos s = (Ok tt, mk_session (user_ns s) (effects s ++ [Display t]))
    /\ Sorted String.le (map row_variable t)
    /\ NoDup (map row_variable t)
    /\ forall row,
         row ∈ t
         <-> exists x v,
               user_ns s !! x = Some v
               /\ underscore x = false
               /\ row = mk_row x (describe v).1 (describe v).2.
Proof.
  intros _. exists (whos_table (user_ns s)). split; [reflexivity|].
  pose proof (merge_sort_Permutation name_le
                (filter listed (map_to_list (user_ns s)))) as Hperm.
  split.
  { rewrite whos_table_names. apply Sorted_names, Sorted_merge_sort, _. }
  split.
  { rewrite whos_table_names.
    change (NoDup ((merge_sort name_le
                      (filter listed (map_to_list (user_ns s)))).*1)).
    rewrite Hperm.
    apply (NoDup_fmap_fst (filter listed (map_to_list (user_ns s)))).
    - intros x v1 v2 [_ H1%elem_of_map_to_list]%list_elem_of_filter
                     [_ H2%elem_of_map_to_list]%list_elem_of_filter.
      congruence.
    - apply NoDup_filter, NoDup_map_to_list. }
  intros row. unfold whos_table.
  change (map ?f ?l) with (f <$> l). rewrite list_elem_of_fmap. split.
  - intros ([x v] & -> & Hin). rewrite Hperm in Hin.
    apply list_elem_of_filter in Hin as [Hl Hin].
    apply elem_of_map_to_list in Hin. by exists x, v.
  - intros (x & v & Hx & Hu & ->). exists (x, v). split; [reflexivity|].
    rewrite Hperm. apply list_elem_of_filter. split; [exact Hu|].
    by apply elem_of_map_to_list.
Qed.

Lemma whos_lists_the_namespace_witness :
  let s := mk_session (<["lat" := VInt 7]>
                         (<["_x" := VFloat 1]> {[ "AT" := VInt 2 ]})) [] in
  user_ns s !! "whos" = None
  /\ exists t,
       whos s = (Ok tt, mk_session (user_ns s) (effects s ++ [Display t]))
       /\ Sorted String.le (map row_variable t)
       /\ NoDup (map row_variable t)
       /\ forall row,
            row ∈ t
            <-> exists x v,
                  user_ns s !! x = Some v
                  /\ underscore x = false
                  /\ row = mk_row x (describe v).1 (describe v).2.
Proof.
  intros s.
  assert (H : user_ns s !! "whos" = None) by reflexivity.
  split; [exact H|]. exact (whos_lists_the_namespace s H).
Defined.

(** The table of the session above: the underscore name is left out. *)
Example whos_skips_underscore :
  whos_table (<["lat" := VInt 7]> (<["_x" := VFloat 1]> {[ "AT" := VInt 2 ]}))
  = [ mk_row "AT" "int" (InfoInt 2); mk_row "lat" "int" (InfoInt 7) ].
Proof. vm_compute. reflexivity. Qed.

(** *** Running the notebook again *)

Lemma foldl_rebind_stable (x : string) (v : value) (os : list outcome) :
  Forall (fun o => rebind x (Some v) o = Some v) os ->
  foldl (rebind x) (Some v) os = Some v.
Proof.
  induction 1 as [|o os Ho _ IH]; cbn [foldl]; [done|]. by rewrite Ho.
Qed.

Lemma assigned_stable (x : string) :
  In x assigned ->
  exists v,
    (forall s, user_ns (final s) !! x = Some v)
    /\ Forall (fun o => rebind x (Some v) o = Some v) outcomes.
Proof.
  intros Hx. cbn in Hx.
  repeat (destruct Hx as [<-|Hx];
          [eexists; split;
           [intros s; rewrite lookup_final; reflexivity
           |unfold outcomes; repeat constructor]|]).
  destruct Hx.
Qed.

(** X10: running the notebook again changes no variable.  In the session a
    complete run leaves behind, running any prefix of the notebook (or all
    of it) once more succeeds and leaves the namespace exactly as it is. *)
Theorem rerun_keeps_namespace (s : session) (n : nat) :
  (run_upto n (final s)).1 = Ok tt
  /\ user_ns (run_upto n (final s)).2 = user_ns (final s).
Proof.
  split; [by rewrite run_upto_outcomes|].
  apply map_eq. intros x. rewrite lookup_run_upto.
  destruct (decide (x ∈ assigned)) as [Hin|Hnin];
    rewrite list_elem_of_In in *.
  - destruct (assigned_stable x Hin) as (v & Hv & Hstable).
    rewrite Hv. apply foldl_rebind_stable. by apply Forall_take.
  - apply foldl_rebind_others, Forall_take. by apply names_not_rebinds.
Qed.

(** *** The two later allocation cells in either order *)

Lemma exec_app (p q : list (M unit)) (s : session) :
  exec (p ++ q) s
  = match exec p s with
    | (Ok _, s') => exec q s'
    | (Raise e, s') => (Raise e, s')
    end.
Proof.
  revert s. induction p as [|c p IH]; intros s; [reflexivity|].
  cbn [app exec]. unfold bind.
  destruct (c s) as [[[]|e] s']; [apply IH|reflexivity].
Qed.

Lemma exec_cell_stack (s : session) (a b : Z) :
  user_ns s !! "np" = Some (VModule "numpy") ->
  user_ns s !! "NLON" = Some (VInt a) ->
  user_ns s !! "NLAT" = Some (VInt b) ->
  Np.admissible [a; b; 13] = true ->
  exec cell_stack s = (Ok tt, foldl apply_outcome s (stack_outcomes a b)).
Proof.
  intros Hnp HNLON HNLAT Hadm. unfold cell_stack, stack_outcomes.
  cbn [foldl].
  rewrite (exec_cons_outcome _ _ _ _ (literal_outcome s "DTMAX" (VInt 6))).
  rewrite (exec_cons_outcome _ _ _ _ (literal_outcome _ "DTstack" (VInt 1))).
  set (s2 := apply_outcome (apply_outcome s _) _).
  assert (Hnp2 : user_ns s2 !! "np" = Some (VModule "numpy"))
    by (subst s2; cbn; by rewrite !lookup_insert_ne by done).
  assert (HNLON2 : user_ns s2 !! "NLON" = Some (VInt a))
    by (subst s2; cbn; by rewrite !lookup_insert_ne by done).
  assert (HNLAT2 : user_ns s2 !! "NLAT" = Some (VInt b))
    by (subst s2; cbn; by rewrite !lookup_insert_ne by done).
  assert (Hd2 : user_ns s2 !! "DTMAX" = Some (VInt 6)).
  { subst s2. cbn. rewrite lookup_insert_ne by done.
    by rewrite lookup_insert_eq. }
  clearbody s2.
  assert (Hstep : forall x s',
             user_ns s' !! "np" = Some (VModule "numpy") ->
             user_ns s' !! "NLON" = Some (VInt a) ->
             user_ns s' !! "NLAT" = Some (VInt b) ->
             user_ns s' !! "DTMAX" = Some (VInt 6) ->
             stack_statement x s'
             = (Ok tt, apply_outcome s' (allocates x (Np.full [a; b; 13] 0)))).
  { intros x s' H1 H2 H3 H4.
    rewrite (stack_statement_cases s' a b H1 H2 H3 x 6 H4).
    change (2 * 6 + 1) with 13. by rewrite Hadm. }
  rewrite (exec_cons_outcome _ _ _ _
             (Hstep "WV_stack" s2 Hnp2 HNLON2 HNLAT2 Hd2)).
  rewrite (exec_cons_outcome _ _ _ (allocates "tobs_stack"
                                                (Np.full [a; b; 13] 0)));
    [reflexivity|].
  apply Hstep; by rewrite lookup_allocates.
Qed.

Lemma reserved_before_after : Forall reserved before_after.
Proof. unfold before_after, reserved. repeat constructor; discriminate. Qed.

Lemma lookup_stack_outcomes (s : session) (a b : Z) (x : string) :
  x <> "DTMAX" -> x <> "DTstack" -> x <> "WV_stack" -> x <> "tobs_stack" ->
  user_ns (foldl apply_outcome s (stack_outcomes a b)) !! x = user_ns s !! x.
Proof.
  intros H1 H2 H3 H4. cbn. by rewrite !lookup_insert_ne by done.
Qed.

(** X12: the before/after cell and the stack cell can be run in either
    order.  From an ordinary session with numpy imported and positive grid
    sizes whose stack is no larger than the largest array the notebook
    itself allocates, both orders succeed and end with the same namespace;
    only the order of the allocations differs. *)
Theorem allocation_cells_commute (s : session) (a b : Z) :
  ordinary s ->
  user_ns s !! "np" = Some (VModule "numpy") ->
  user_ns s !! "NLON" = Some (VInt a) ->
  user_ns s !! "NLAT" = Some (VInt b) ->
  1 <= a -> 1 <= b -> 8 * (a * b * 13) <= largest_recorded_bytes ->
  exists s1 s2,
    exec (cell_before_after ++ cell_stack) s = (Ok tt, s1)
    /\ exec (cell_stack ++ cell_before_after) s = (Ok tt, s2)
    /\ user_ns s1 = user_ns s2
    /\ effects s1
       = effects s ++ replicate 4 (Alloc [a; b])
                   ++ replicate 2 (Alloc [a; b; 13])
    /\ effects s2
       = effects s ++ replicate 2 (Alloc [a; b; 13])
                   ++ replicate 4 (Alloc [a; b]).
Proof.
  intros _ Hnp HNLON HNLAT Ha Hb Hsize.
  assert (Hgrid : Np.admissible [a; b] = true)
    by (apply admissible_grid; unfold largest_recorded_bytes in *; nia).
  assert (Hstack : Np.admissible [a; b; 13] = true)
    by (apply admissible_stack; (done || lia)).
  exists (foldl apply_outcome
                (foldl apply_outcome s (before_after_outcomes a b))
                (stack_outcomes a b)),
         (foldl apply_outcome
                (foldl apply_outcome s (stack_outcomes a b))
                (before_after_outcomes a b)).
  split.
  { rewrite exec_app.
    change cell_before_after with (map grid_statement before_after).
    rewrite (exec_grid_statements before_after a b Hgrid
               reserved_before_after s Hnp HNLON HNLAT).
    apply exec_cell_stack; [..|done];
      unfold before_after_outcomes; rewrite lookup_foldl_allocates;
      by rewrite decide_False by compute_done. }
  split.
  { rewrite exec_app, (exec_cell_stack s a b Hnp HNLON HNLAT Hstack).
    change cell_before_after with (map grid_statement before_after).
    apply (exec_grid_statements before_after a b Hgrid reserved_before_after);
      by rewrite lookup_stack_outcomes. }
  split.
  { apply map_eq. intros x. rewrite !lookup_foldl_outcomes.
    cbn [before_after_outcomes stack_outcomes before_after map foldl rebind
         allocates].
    repeat case_decide; subst; done. }
  split.
  - unfold before_after_outcomes at 1. cbn [stack_outcomes foldl].
    cbn [apply_outcome allocates effects shape Np.full].
    rewrite effects_foldl_allocates.
    cbn [shape Np.full length before_after replicate].
    by rewrite ?app_nil_r, <- ?app_assoc.
  - unfold before_after_outcomes. rewrite effects_foldl_allocates.
    cbn [stack_outcomes foldl apply_outcome allocates effects shape Np.full
         length before_after replicate].
    by rewrite ?app_nil_r, <- ?app_assoc.
Qed.

Lemma allocation_cells_commute_witness :
  let s := mk_session (<["np" := VModule "numpy"]>
                         (<["NLON" := VInt 2]> {[ "NLAT" := VInt 3 ]}))
                      [Alloc [5]] in
  ordinary s
  /\ exists s1 s2,
       exec (cell_before_after ++ cell_stack) s = (Ok tt, s1)
       /\ exec (cell_stack ++ cell_before_after) s = (Ok tt, s2)
       /\ user_ns s1 = user_ns s2
       /\ effects s1
          = effects s ++ replicate 4 (Alloc [2; 3])
                      ++ replicate 2 (Alloc [2; 3; 13])
       /\ effects s2
          = effects s ++ replicate 2 (Alloc [2; 3; 13])
                      ++ replicate 4 (Alloc [2; 3]).
Proof.
  intros s.
  assert (H : ordinary s) by (by apply ordinary_three).
  split; [exact H|].
  apply (allocation_cells_commute s 2 3 H); try reflexivity;
    unfold largest_recorded_bytes; lia.
Defined.
